(** * Tracking of hardware clocks (hwclock.c): a shallow embedding

    The development follows src/hwclock.c function by function.

    Numbers.  A C [int] is a [Z]: the module only compares and clamps
    its [int] arguments, and its one counter stays in [0, 64]
    ([n_samples_bounds]), so no wrap-around is reachable.  A C [double]
    is an exact rational ([Q]): rounding, infinities and NaN are outside
    the model, and equalities between computed doubles are stated with
    [==].

    State.  The instance record is a Rocq record that every mutating
    function takes and returns.  The two sample arrays are lists indexed
    by [Z]; memory that the C code leaves uninitialised is an explicit
    argument of the constructor.

    Collaborators.  The quantile estimator, the regression fitter and the
    timestamp adjustment live in other files of the daemon; they are the
    fields of the class [Collaborators], so every theorem holds for all
    of them.  What the local clock module answers at the time of a call
    is the record [LCL]. *)

From Stdlib Require Import ZArith QArith Qabs Lia Lqa Bool.
From stdpp Require Import base list.

Open Scope Z_scope.

(** ** Numbers, timestamps and macros *)

Definition double : Type := Q.

(** Modelled from the spec: [struct timespec] and the helpers of util.c
    ([UTI_DiffTimespecsToDouble], [UTI_AddDoubleToTimespec],
    [UTI_CompareTimespecs]) are declared outside src/.  The spec writes
    them as the exact difference [a − b], the exact sum [t + d] and the
    order of two timestamps, so a timestamp is an exact number of
    seconds. *)
Definition timespec : Type := Q.

Definition UTI_DiffTimespecsToDouble (a b : timespec) : double := (a - b)%Q.

Definition UTI_AddDoubleToTimespec (start : timespec) (increment : double)
  : timespec := (start + increment)%Q.

Definition UTI_CompareTimespecs (a b : timespec) : Z :=
  match (a ?= b)%Q with Lt => -1 | Eq => 0 | Gt => 1 end.

(** [a < b] and [a > b] on doubles, as C evaluates them. *)
Definition dlt (a b : double) : bool :=
  match (a ?= b)%Q with Lt => true | _ => false end.

Definition dgt (a b : double) : bool := dlt b a.

Definition dle (a b : double) : bool := negb (dlt b a).

Definition dge (a b : double) : bool := negb (dlt a b).

Definition fabs (x : double) : double := Qabs x.

(** Modelled from the spec: the macros [MIN], [MAX] and [CLAMP] come from
    a header outside src/; the spec reads them as minimum, maximum and
    clamping into a closed range.  They are written here as the usual
    conditional expressions, for [int] and for [double] operands. *)
Definition MIN (x y : Z) : Z := if x <? y then x else y.

Definition MAX (x y : Z) : Z := if x >? y then x else y.

Definition CLAMP (lo x hi : Z) : Z := MAX lo (MIN x hi).

Definition fMIN (x y : double) : double := if dlt x y then x else y.

Definition fMAX (x y : double) : double := if dgt x y then x else y.

(** Minimum and maximum number of samples per clock *)
Definition MIN_SAMPLES : Z := 2.
Definition MAX_SAMPLES : Z := 64.

(** Maximum acceptable frequency offset of the clock *)
Definition MAX_FREQ_OFFSET : double := (2 / 3)%Q.

(** Quantiles for filtering readings by delay *)
Definition DELAY_QUANT_MIN_K : Z := 1.
Definition DELAY_QUANT_MAX_K : Z := 2.
Definition DELAY_QUANT_Q : Z := 10.
Definition DELAY_QUANT_REPEAT : Z := 7.
Definition DELAY_QUANT_MIN_STEP : double := (1 # 1000000000)%Q.

(** ** Arrays and loops *)

(** [a[i]] and [a[i] = v] on an array of doubles.  An index outside the
    array is undefined behaviour in C; the model reads 0 and writes
    nothing there, and [n_samples_bounds] shows that the module never
    does it. *)
Definition aget (a : list double) (i : Z) : double :=
  if 0 <=? i then default 0%Q (a !! Z.to_nat i) else 0%Q.

Definition aset (a : list double) (i : Z) (v : double) : list double :=
  if 0 <=? i then <[Z.to_nat i := v]> a else a.

(** [MallocArray(double, n)]: [n] cells whose contents are whatever the
    allocator left there. *)
Definition MallocArray (garbage : nat -> double) (n : Z) : list double :=
  map garbage (seq 0 (Z.to_nat n)).

(** [for (i = lo; i < hi; i++) body]: the counter runs upwards, the fuel
    is the exact number of iterations. *)
Fixpoint for_up {S : Type} (fuel : nat) (i hi : Z) (body : Z -> S -> S)
  (s : S) : S :=
  match fuel with
  | O => s
  | Datatypes.S k =>
      if i <? hi then for_up k (i + 1) hi body (body i s) else s
  end.

Definition for_loop {S : Type} (lo hi : Z) (body : Z -> S -> S) (s : S) : S :=
  for_up (Z.to_nat (hi - lo)) lo hi body s.

(** ** Collaborators *)

(** What [RGR_FindBestRobustRegression] hands back: its return value and
    the four output arguments. *)
Record RGR_Result : Type := mkRGR {
  rgr_valid : bool;
  rgr_b0 : double;
  rgr_b1 : double;
  rgr_n_runs : Z;
  rgr_best_start : Z
}.

Class Collaborators : Type := {
  QNT_Instance : Type;
  QNT_CreateInstance : Z -> Z -> Z -> Z -> double -> QNT_Instance;
  QNT_Accumulate : QNT_Instance -> double -> QNT_Instance;
  QNT_GetQuantile : QNT_Instance -> Z -> double;
  RGR_FindBestRobustRegression :
    list double -> list double -> Z -> double -> RGR_Result;
  UTI_AdjustTimespec :
    timespec -> timespec -> double -> double -> timespec * double
}.

(** The local clock module as one call sees it. *)
Record LCL : Type := mkLCL {
  LCL_CookTime : timespec -> timespec;
  LCL_ReadAbsoluteFrequency : double;
  LCL_GetSysPrecisionAsQuantum : double
}.

(** ** The instance record *)

Section Instance.
Context `{C : Collaborators}.

Record HCL_Instance_Record : Type := mkHCL {
  hw_ref : timespec;
  local_ref : timespec;
  x_data : list double;
  y_data : list double;
  min_samples : Z;
  max_samples : Z;
  n_samples : Z;
  last_err : double;
  min_separation : double;
  precision : double;
  valid_coefs : bool;
  offset : double;
  frequency : double;
  delay_quants : QNT_Instance
}.

Definition set_hw_ref (v : timespec) (c : HCL_Instance_Record) :=
  mkHCL v (local_ref c) (x_data c) (y_data c) (min_samples c) (max_samples c)
    (n_samples c) (last_err c) (min_separation c) (precision c)
    (valid_coefs c) (offset c) (frequency c) (delay_quants c).

Definition set_local_ref (v : timespec) (c : HCL_Instance_Record) :=
  mkHCL (hw_ref c) v (x_data c) (y_data c) (min_samples c) (max_samples c)
    (n_samples c) (last_err c) (min_separation c) (precision c)
    (valid_coefs c) (offset c) (frequency c) (delay_quants c).

Definition set_x_data (v : list double) (c : HCL_Instance_Record) :=
  mkHCL (hw_ref c) (local_ref c) v (y_data c) (min_samples c) (max_samples c)
    (n_samples c) (last_err c) (min_separation c) (precision c)
    (valid_coefs c) (offset c) (frequency c) (delay_quants c).

Definition set_y_data (v : list double) (c : HCL_Instance_Record) :=
  mkHCL (hw_ref c) (local_ref c) (x_data c) v (min_samples c) (max_samples c)
    (n_samples c) (last_err c) (min_separation c) (precision c)
    (valid_coefs c) (offset c) (frequency c) (delay_quants c).

Definition set_min_samples (v : Z) (c : HCL_Instance_Record) :=
  mkHCL (hw_ref c) (local_ref c) (x_data c) (y_data c) v (max_samples c)
    (n_samples c) (last_err c) (min_separation c) (precision c)
    (valid_coefs c) (offset c) (frequency c) (delay_quants c).

Definition set_max_samples (v : Z) (c : HCL_Instance_Record) :=
  mkHCL (hw_ref c) (local_ref c) (x_data c) (y_data c) (min_samples c) v
    (n_samples c) (last_err c) (min_separation c) (precision c)
    (valid_coefs c) (offset c) (frequency c) (delay_quants c).

Definition set_n_samples (v : Z) (c : HCL_Instance_Record) :=
  mkHCL (hw_ref c) (local_ref c) (x_data c) (y_data c) (min_samples c)
    (max_samples c) v (last_err c) (min_separation c) (precision c)
    (valid_coefs c) (offset c) (frequency c) (delay_quants c).

Definition set_last_err (v : double) (c : HCL_Instance_Record) :=
  mkHCL (hw_ref c) (local_ref c) (x_data c) (y_data c) (min_samples c)
    (max_samples c) (n_samples c) v (min_separation c) (precision c)
    (valid_coefs c) (offset c) (frequency c) (delay_quants c).

Definition set_min_separation (v : double) (c : HCL_Instance_Record) :=
  mkHCL (hw_ref c) (local_ref c) (x_data c) (y_data c) (min_samples c)
    (max_samples c) (n_samples c) (last_err c) v (precision c)
    (valid_coefs c) (offset c) (frequency c) (delay_quants c).

Definition set_precision (v : double) (c : HCL_Instance_Record) :=
  mkHCL (hw_ref c) (local_ref c) (x_data c) (y_data c) (min_samples c)
    (max_samples c) (n_samples c) (last_err c) (min_separation c) v
    (valid_coefs c) (offset c) (frequency c) (delay_quants c).

Definition set_valid_coefs (v : bool) (c : HCL_Instance_Record) :=
  mkHCL (hw_ref c) (local_ref c) (x_data c) (y_data c) (min_samples c)
    (max_samples c) (n_samples c) (last_err c) (min_separation c)
    (precision c) v (offset c) (frequency c) (delay_quants c).

Definition set_offset (v : double) (c : HCL_Instance_Record) :=
  mkHCL (hw_ref c) (local_ref c) (x_data c) (y_data c) (min_samples c)
    (max_samples c) (n_samples c) (last_err c) (min_separation c)
    (precision c) (valid_coefs c) v (frequency c) (delay_quants c).

Definition set_frequency (v : double) (c : HCL_Instance_Record) :=
  mkHCL (hw_ref c) (local_ref c) (x_data c) (y_data c) (min_samples c)
    (max_samples c) (n_samples c) (last_err c) (min_separation c)
    (precision c) (valid_coefs c) (offset c) v (delay_quants c).

Definition set_delay_quants (v : QNT_Instance) (c : HCL_Instance_Record) :=
  mkHCL (hw_ref c) (local_ref c) (x_data c) (y_data c) (min_samples c)
    (max_samples c) (n_samples c) (last_err c) (min_separation c)
    (precision c) (valid_coefs c) (offset c) (frequency c) v.

(** ** handle_slew *)

Definition handle_slew (cooked : timespec) (dfreq doffset : double)
  (clock : HCL_Instance_Record) : HCL_Instance_Record :=
  let clock :=
    if n_samples clock =? 0 then clock
    else set_local_ref
           (fst (UTI_AdjustTimespec (local_ref clock) cooked dfreq doffset))
           clock in
  if valid_coefs clock
  then set_frequency (frequency clock / (1 - dfreq))%Q clock
  else clock.

(** ** HCL_CreateInstance *)

(** [mem] is the record as [MallocNew] returns it, [gx] and [gy] the
    contents of the two fresh arrays: the constructor assigns the fields
    and the two cells that the C code assigns, and no others. *)
Definition HCL_CreateInstance (mem : HCL_Instance_Record)
  (gx gy : nat -> double)
  (min_samples max_samples : Z) (min_separation precision : double)
  : HCL_Instance_Record :=
  let min_samples := CLAMP MIN_SAMPLES min_samples MAX_SAMPLES in
  let max_samples := CLAMP MIN_SAMPLES max_samples MAX_SAMPLES in
  let max_samples := MAX min_samples max_samples in
  let clock := mem in
  let clock := set_x_data (MallocArray gx max_samples) clock in
  let clock := set_y_data (MallocArray gy max_samples) clock in
  let clock := set_x_data (aset (x_data clock) (max_samples - 1) 0%Q) clock in
  let clock := set_y_data (aset (y_data clock) (max_samples - 1) 0%Q) clock in
  let clock := set_min_samples min_samples clock in
  let clock := set_max_samples max_samples clock in
  let clock := set_n_samples 0 clock in
  let clock := set_valid_coefs false clock in
  let clock := set_min_separation min_separation clock in
  let clock := set_precision precision clock in
  set_delay_quants
    (QNT_CreateInstance DELAY_QUANT_MIN_K DELAY_QUANT_MAX_K DELAY_QUANT_Q
       DELAY_QUANT_REPEAT DELAY_QUANT_MIN_STEP) clock.

(** ** HCL_NeedsNewSample *)

Definition HCL_NeedsNewSample (clock : HCL_Instance_Record) (now : timespec)
  : bool :=
  (n_samples clock =? 0)
  || dge (fabs (UTI_DiffTimespecsToDouble now (local_ref clock)))
         (min_separation clock).

(** ** HCL_ProcessReadings *)

(** One reading is the row [tss[i]]: the local time before the read, the
    hardware time, the local time after the read. *)
Definition reading : Type := (timespec * timespec * timespec)%type.

Definition tss_at (tss : list reading) (i k : Z) : timespec :=
  if 0 <=? i then
    match tss !! Z.to_nat i with
    | Some (t0, t1, t2) => if k =? 0 then t0 else if k =? 1 then t1 else t2
    | None => 0%Q
    end
  else 0%Q.

(** The current correction multiplier needed to get cooked delays. *)
Definition reading_freq (lcl : LCL) (tss : list reading) (n_readings : Z)
  : double :=
  let ts1 := LCL_CookTime lcl (tss_at tss 0 0) in
  let ts2 := LCL_CookTime lcl (tss_at tss (n_readings - 1) 2) in
  if UTI_CompareTimespecs (tss_at tss 0 0) (tss_at tss (n_readings - 1) 2) <? 0
  then (UTI_DiffTimespecsToDouble ts1 ts2
        / UTI_DiffTimespecsToDouble (tss_at tss 0 0)
            (tss_at tss (n_readings - 1) 2))%Q
  else 1%Q.

Definition raw_delay_at (tss : list reading) (i : Z) : double :=
  UTI_DiffTimespecsToDouble (tss_at tss i 2) (tss_at tss i 0).

Definition delay_at (freq : double) (tss : list reading) (i : Z) : double :=
  (freq * raw_delay_at tss i)%Q.

(** The locals that the first loop carries, with the estimator it feeds. *)
Record scan_state : Type := mkScan {
  sc_min_delay : double;
  sc_min_reading : Z;
  sc_quants : QNT_Instance
}.

(** A loop whose body may [return]: [inl] is the value returned from
    inside the loop, [inr] the state when the loop runs to its end. *)
Fixpoint for_up_ret {S R : Type} (fuel : nat) (i hi : Z)
  (body : Z -> S -> R + S) (s : S) : R + S :=
  match fuel with
  | O => inr s
  | Datatypes.S k =>
      if i <? hi then
        match body i s with
        | inl r => inl r
        | inr s' => for_up_ret k (i + 1) hi body s'
        end
      else inr s
  end.

(** Body of the first loop (lines 184-197).  A negative delay returns
    from the function; the estimator keeps what it was fed before. *)
Definition scan_body (freq : double) (tss : list reading) (i : Z)
  (s : scan_state) : QNT_Instance + scan_state :=
  let delay := delay_at freq tss i in
  if dlt delay 0%Q then inl (sc_quants s)
  else
    let s :=
      if (i =? 0) || dgt (sc_min_delay s) delay
      then mkScan delay i (sc_quants s)
      else s in
    inr (mkScan (sc_min_delay s) (sc_min_reading s)
           (QNT_Accumulate (sc_quants s) delay)).

(** [min_delay] and [min_reading] are not initialised in C; the test
    [i == 0] assigns them in the first iteration before they are read. *)
Definition scan_delays (freq : double) (tss : list reading) (n_readings : Z)
  (q : QNT_Instance) : QNT_Instance + scan_state :=
  for_up_ret (Z.to_nat n_readings) 0 n_readings (scan_body freq tss)
    (mkScan 0%Q 0 q).

(** The acceptance band (lines 200-205). *)
Definition delay_band (lcl : LCL) (q : QNT_Instance) : double * double :=
  let local_prec := LCL_GetSysPrecisionAsQuantum lcl in
  let low_delay := QNT_GetQuantile q DELAY_QUANT_MIN_K in
  let high_delay := QNT_GetQuantile q DELAY_QUANT_MAX_K in
  let low_delay := fMIN low_delay high_delay in
  let high_delay := fMAX high_delay (low_delay + local_prec)%Q in
  (low_delay, high_delay).

(** The locals that the second loop carries. *)
Record combine_state : Type := mkComb {
  cb_combined : Z;
  cb_delay_sum : double;
  cb_hw_sum : double;
  cb_local_sum : double
}.

(** Body of the second loop (lines 209-218). *)
Definition combine_body (freq low_delay high_delay : double)
  (tss : list reading) (i : Z) (s : combine_state) : combine_state :=
  let raw_delay := raw_delay_at tss i in
  let delay := (freq * raw_delay)%Q in
  if dlt delay low_delay || dgt delay high_delay then s
  else
    mkComb (cb_combined s + 1)
      (cb_delay_sum s + delay)%Q
      (cb_hw_sum s + UTI_DiffTimespecsToDouble (tss_at tss i 1) (tss_at tss 0 1))%Q
      (cb_local_sum s
       + (UTI_DiffTimespecsToDouble (tss_at tss i 0) (tss_at tss 0 0)
          + raw_delay / 2))%Q.

Definition combine_readings (freq low_delay high_delay : double)
  (tss : list reading) (n_readings : Z) : combine_state :=
  for_loop 0 n_readings (combine_body freq low_delay high_delay tss)
    (mkComb 0 0%Q 0%Q 0%Q).

(** What the function writes to [*hw_ts], [*local_ts] and [*err]. *)
Definition sample : Type := (timespec * timespec * double)%type.

(** [int] to [double]. *)
Definition of_int (n : Z) : double := inject_Z n.

(** [HCL_CookTime] (lines 317-334): [None] is the return value 0. *)
Definition HCL_CookTime (clock : HCL_Instance_Record) (raw : timespec)
  : option (timespec * double) :=
  if negb (valid_coefs clock) then None
  else
    let elapsed := UTI_DiffTimespecsToDouble raw (hw_ref clock) in
    let offset := (elapsed / frequency clock - offset clock)%Q in
    let cooked := UTI_AddDoubleToTimespec (local_ref clock) offset in
    Some (cooked, last_err clock).

(** The reading with minimum delay, as lines 233-235 write it out. *)
Definition fallback_sample (clock : HCL_Instance_Record) (freq : double)
  (tss : list reading) (min_delay : double) (min_reading : Z) : sample :=
  (tss_at tss min_reading 1,
   UTI_AddDoubleToTimespec (tss_at tss min_reading 0) (min_delay / freq / 2)%Q,
   fMAX (min_delay / 2)%Q (precision clock)).

(** The test of lines 237-240; [pred_err] is assigned inside it. *)
Definition fallback_accepted (lcl : LCL) (clock : HCL_Instance_Record)
  (s : sample) : bool :=
  let '(hw_ts, local_ts, err) := s in
  let ts1 := LCL_CookTime lcl local_ts in
  match HCL_CookTime clock hw_ts with
  | None => true
  | Some (ts2, e) => dgt (UTI_DiffTimespecsToDouble ts1 ts2) err
  end.

(** [n_readings] is the length of the batch.  The result is the sample
    written through the three pointers when the function returns 1,
    [None] when it returns 0, and the instance with its estimator as the
    call leaves it. *)
Definition HCL_ProcessReadings (lcl : LCL) (clock : HCL_Instance_Record)
  (tss : list reading) : option sample * HCL_Instance_Record :=
  let n_readings := Z.of_nat (length tss) in
  if n_readings <? 1 then (None, clock)
  else
    let freq := reading_freq lcl tss n_readings in
    match scan_delays freq tss n_readings (delay_quants clock) with
    | inl q => (None, set_delay_quants q clock)
    | inr sc =>
        let clock := set_delay_quants (sc_quants sc) clock in
        let '(low_delay, high_delay) := delay_band lcl (delay_quants clock) in
        let cb := combine_readings freq low_delay high_delay tss n_readings in
        if cb_combined cb >? 0 then
          (Some
             (UTI_AddDoubleToTimespec (tss_at tss 0 1)
                (cb_hw_sum cb / of_int (cb_combined cb))%Q,
              UTI_AddDoubleToTimespec (tss_at tss 0 0)
                (cb_local_sum cb / of_int (cb_combined cb))%Q,
              fMAX (cb_delay_sum cb / of_int (cb_combined cb) / 2)%Q
                (precision clock)),
           clock)
        else
          let s := fallback_sample clock freq tss (sc_min_delay sc)
                     (sc_min_reading sc) in
          if fallback_accepted lcl clock s then (Some s, clock)
          else (None, clock)
    end.

(** ** HCL_AccumulateSample *)

Definition local_freq_of (lcl : LCL) : double :=
  (1 - LCL_ReadAbsoluteFrequency lcl / 1000000)%Q.

(** Body of the loop of lines 272-275. *)
Definition shift_body (hw_delta local_delta : double) (i : Z)
  (clock : HCL_Instance_Record) : HCL_Instance_Record :=
  let clock :=
    set_y_data (aset (y_data clock) (i - 1)
                  (aget (y_data clock) i - hw_delta)%Q) clock in
  set_x_data (aset (x_data clock) (i - 1)
                (aget (x_data clock) i - local_delta)%Q) clock.

(** Shift old samples (lines 260-276). *)
Definition shift_old_samples (lcl : LCL) (clock : HCL_Instance_Record)
  (hw_ts local_ts : timespec) : HCL_Instance_Record :=
  let local_freq := local_freq_of lcl in
  if n_samples clock =? 0 then clock
  else
    let clock :=
      if n_samples clock >=? max_samples clock
      then set_n_samples (n_samples clock - 1) clock else clock in
    let hw_delta := UTI_DiffTimespecsToDouble hw_ts (hw_ref clock) in
    let local_delta :=
      (UTI_DiffTimespecsToDouble local_ts (local_ref clock) / local_freq)%Q in
    let clock :=
      if dle hw_delta 0%Q || dlt local_delta (min_separation clock / 2)%Q
      then set_n_samples 0 clock else clock in
    for_loop (max_samples clock - n_samples clock) (max_samples clock)
      (shift_body hw_delta local_delta) clock.

(** Lines 278-281. *)
Definition install_sample (clock : HCL_Instance_Record)
  (hw_ts local_ts : timespec) (err : double) : HCL_Instance_Record :=
  let clock := set_n_samples (n_samples clock + 1) clock in
  let clock := set_hw_ref hw_ts clock in
  let clock := set_local_ref local_ts clock in
  set_last_err err clock.

(** The [n_samples] newest cells of an array: [a + max_samples - n_samples]. *)
Definition live_window (clock : HCL_Instance_Record) (a : list double)
  : list double :=
  take (Z.to_nat (n_samples clock))
    (drop (Z.to_nat (max_samples clock - n_samples clock)) a).

(** The call of the fitter (lines 284-288). *)
Definition fit_samples (clock : HCL_Instance_Record) : RGR_Result :=
  RGR_FindBestRobustRegression
    (live_window clock (x_data clock)) (live_window clock (y_data clock))
    (n_samples clock) (1 # 10000000000)%Q.

(** Drop unneeded samples (lines 298-299). *)
Definition drop_unneeded (best_start : Z) (clock : HCL_Instance_Record)
  : HCL_Instance_Record :=
  if n_samples clock >? min_samples clock
  then set_n_samples
         (n_samples clock
          - MIN best_start (n_samples clock - min_samples clock)) clock
  else clock.

(** The condition of lines 303-304. *)
Definition fit_rejected (clock : HCL_Instance_Record) (err : double) : bool :=
  dgt (fabs (offset clock)) err
  || dgt (fabs (frequency clock - 1)%Q) MAX_FREQ_OFFSET.

(** Lines 303-308. *)
Definition sanity_check (err : double) (clock : HCL_Instance_Record)
  : HCL_Instance_Record :=
  if fit_rejected clock err
  then set_valid_coefs false (set_n_samples 0 clock)
  else clock.

(** The instance when the fitter has answered: [valid_coefs] and [offset]
    are the two values the call writes into the record. *)
Definition store_fit (r : RGR_Result) (clock : HCL_Instance_Record)
  : HCL_Instance_Record :=
  set_offset (rgr_b0 r) (set_valid_coefs (rgr_valid r) clock).

Definition HCL_AccumulateSample (lcl : LCL) (clock : HCL_Instance_Record)
  (hw_ts local_ts : timespec) (err : double) : HCL_Instance_Record :=
  let local_freq := local_freq_of lcl in
  let clock := shift_old_samples lcl clock hw_ts local_ts in
  let clock := install_sample clock hw_ts local_ts err in
  let r := fit_samples clock in
  let clock := store_fit r clock in
  if negb (valid_coefs clock) then clock
  else
    let clock := set_frequency (rgr_b1 r / local_freq)%Q clock in
    let clock := drop_unneeded (rgr_best_start r) clock in
    sanity_check err clock.

(** ** Reachable instances *)

(** Every way the daemon has to an instance: the constructor, then any
    sequence of calls of the public functions and of the slew handler,
    each with whatever the local clock answers at that time. *)
Inductive reachable : HCL_Instance_Record -> Prop :=
| reach_create mem gx gy mins maxs sep prec :
    reachable (HCL_CreateInstance mem gx gy mins maxs sep prec)
| reach_accumulate lcl clock hw_ts local_ts err :
    reachable clock ->
    reachable (HCL_AccumulateSample lcl clock hw_ts local_ts err)
| reach_process lcl clock tss :
    reachable clock ->
    reachable (snd (HCL_ProcessReadings lcl clock tss))
| reach_slew cooked dfreq doffset clock :
    reachable clock ->
    reachable (handle_slew cooked dfreq doffset clock).

End Instance.

Arguments HCL_Instance_Record : clear implicits.

(** ** The spec's words *)

(** The quantities the specification names, defined on the batch as a
    list and not by running the loops. *)

Definition Qsum (l : list Q) : Q := fold_right Qplus 0%Q l.

Definition mean (l : list Q) : Q := (Qsum l / of_int (Z.of_nat (length l)))%Q.

Definition reading_start (r : reading) : timespec := fst (fst r).
Definition reading_hw (r : reading) : timespec := snd (fst r).
Definition reading_end (r : reading) : timespec := snd r.

(** [delay = freq × (poll_end − poll_start)] *)
Definition reading_delay (freq : double) (r : reading) : double :=
  (freq * (reading_end r - reading_start r))%Q.

(** The delay lies within [[low, high]]. *)
Definition in_band (low high d : double) : bool := dle low d && dle d high.

Definition accepted_readings (freq low high : double) (tss : list reading)
  : list reading :=
  List.filter (fun r => in_band low high (reading_delay freq r)) tss.

(** The multiplier of step 1, from the first and the last reading. *)
Definition batch_freq (lcl : LCL) (first last : reading) : double :=
  if dlt (reading_start first) (reading_end last)
  then ((LCL_CookTime lcl (reading_end last)
         - LCL_CookTime lcl (reading_start first))
        / (reading_end last - reading_start first))%Q
  else 1%Q.

(** ** Collaborators to run the functions with *)

Module Bench.

(** A line fitter: ordinary least squares on three points or more, with
    [bs] as the suggested trim index.  On points that lie on one line
    every fitter has to return that line. *)
Definition least_squares (bs : Z) (x y : list double) (n : Z) (tol : double)
  : RGR_Result :=
  if n <? 3 then mkRGR false 0%Q 0%Q 0 0
  else
    let xm := mean x in
    let ym := mean y in
    let sxy := Qsum (zip_with (fun a b => (a - xm) * (b - ym))%Q x y) in
    let sxx := Qsum (map (fun a => (a - xm) * (a - xm))%Q x) in
    let b1 := (sxy / sxx)%Q in
    mkRGR true (Qred (ym - b1 * xm)) (Qred b1) 0 bs.

(** A quantile estimator that has settled: it answers [q1] for the low
    rank and [q2] for the high one whatever it is fed. *)
Definition settled (bs : Z) (q1 q2 : double) : Collaborators := {|
  QNT_Instance := unit;
  QNT_CreateInstance := fun _ _ _ _ _ => tt;
  QNT_Accumulate := fun q _ => q;
  QNT_GetQuantile := fun _ k => if k =? DELAY_QUANT_MIN_K then q1 else q2;
  RGR_FindBestRobustRegression := least_squares bs;
  UTI_AdjustTimespec := fun old_ts when dfreq doffset =>
    let delta := ((when - old_ts) * dfreq - doffset)%Q in
    ((old_ts + delta)%Q, delta)
|}.

(** Low quantile 1 ms, high quantile 2 ms. *)
Definition collab : Collaborators := settled 0 (1 # 1000) (2 # 1000).

(** A local clock that runs without correction, precision 1 us. *)
Definition lcl : LCL := mkLCL (fun t => t) 0%Q (1 # 1000000).

(** Freshly allocated memory: arbitrary values everywhere. *)
Definition mem : HCL_Instance_Record collab :=
  mkHCL (C := collab) 5%Q 6%Q [] [] 7 8 9 10%Q 11%Q 12%Q true 13%Q 14%Q tt.

Definition garbage (i : nat) : double := inject_Z (Z.of_nat i + 41).

(** The scenario of the specification: [min_samples = 3],
    [max_samples = 8], [min_separation = 1], [precision = 1e-6]. *)
Definition fresh : HCL_Instance_Record collab :=
  HCL_CreateInstance mem garbage garbage 3 8 1%Q (1 # 1000000).

Definition accumulate (hw_ts local_ts : timespec) (err : double)
  (clock : HCL_Instance_Record collab) : HCL_Instance_Record collab :=
  HCL_AccumulateSample lcl clock hw_ts local_ts err.

(** Samples at local times 0 and 10 with the hardware clock equal to the
    local one. *)
Definition two_samples : HCL_Instance_Record collab :=
  accumulate 10%Q 10%Q (1 # 1000000)
    (accumulate 0%Q 0%Q (1 # 1000000) fresh).

(** A third sample on the same line: the fit is exact. *)
Definition on_line : HCL_Instance_Record collab :=
  accumulate 20%Q 20%Q (1 # 1000000) two_samples.

(** Four samples at local times 0, 10, 20, 30 with the hardware clock
    2 ms ahead, then one at local time 40 with the two clocks equal, all
    with error bound 10 ms: the line of the four older samples misses
    the newest one. *)
Definition ahead : HCL_Instance_Record collab :=
  accumulate (30002 # 1000) 30%Q (1 # 100)
    (accumulate (20002 # 1000) 20%Q (1 # 100)
       (accumulate (10002 # 1000) 10%Q (1 # 100)
          (accumulate (2 # 1000) 0%Q (1 # 100) fresh))).

Definition off_line : HCL_Instance_Record collab :=
  accumulate 40%Q 40%Q (1 # 100) ahead.

(** The same collaborators with a fitter that suggests to drop the
    oldest sample, and three samples on one line: a fourth sample takes
    the count above [min_samples]. *)
Definition collab_trim : Collaborators := settled 1 (1 # 1000) (2 # 1000).

Definition three_on_line : HCL_Instance_Record collab_trim :=
  HCL_AccumulateSample lcl
    (HCL_AccumulateSample lcl
       (HCL_AccumulateSample lcl
          (HCL_CreateInstance
             (mkHCL (C := collab_trim) 5%Q 6%Q [] [] 7 8 9 10%Q 11%Q 12%Q true
                13%Q 14%Q tt)
             garbage garbage 3 8 1%Q (1 # 1000000))
          0%Q 0%Q (1 # 1000000))
       10%Q 10%Q (1 # 1000000))
    20%Q 20%Q (1 # 1000000).

(** One reading with a delay of 10 ms, far above the band, taken at
    local time 30 s.  In [spike_late] the hardware clock shows 30.1 s, in
    [spike_early] 29.9 s: the model of [on_line], for which the two
    clocks agree, is off by about 0.1 s either way. *)
Definition spike_late : list reading :=
  [(30, 30 + (1 # 10), 30 + (1 # 100))%Q].

Definition spike_early : list reading :=
  [(30, 30 - (1 # 10), 30 + (1 # 100))%Q].

(** A quantile estimator that keeps the list of what it is fed, and a
    new instance with it. *)
Definition recording : Collaborators := {|
  QNT_Instance := list double;
  QNT_CreateInstance := fun _ _ _ _ _ => [];
  QNT_Accumulate := fun q d => q ++ [d];
  QNT_GetQuantile := fun _ _ => 0%Q;
  RGR_FindBestRobustRegression := least_squares 0;
  UTI_AdjustTimespec := fun t _ _ _ => (t, 0%Q)
|}.

Definition fresh_recording : HCL_Instance_Record recording :=
  HCL_CreateInstance
    (mkHCL (C := recording) 5%Q 6%Q [] [] 7 8 9 10%Q 11%Q 12%Q true 13%Q 14%Q
       [])
    garbage garbage 3 8 1%Q (1 # 1000000).

(** Three readings, the second with its end before its start. *)
Definition stepped : list reading :=
  [(30, 30, 31); (32, 32, 31); (33, 33, 34)]%Q.

End Bench.

(** ** The phases of one call of [HCL_AccumulateSample] *)

Section Phases.
Context `{C : Collaborators}.
Variables (lcl : LCL) (clock : HCL_Instance_Record C).
Variables (hw_ts local_ts : timespec) (err : double).

(** The instance on which the fitter runs: old samples shifted, the new
    one counted. *)
Definition at_fit : HCL_Instance_Record C :=
  install_sample (shift_old_samples lcl clock hw_ts local_ts)
    hw_ts local_ts err.

(** The fitter's answer in this call. *)
Definition fit_result : RGR_Result := fit_samples at_fit.

(** The instance once line 295 has stored the frequency. *)
Definition with_fit : HCL_Instance_Record C :=
  set_frequency (rgr_b1 fit_result / local_freq_of lcl)%Q
    (store_fit fit_result at_fit).

(** The instance between the trim of lines 298-299 and the check of
    lines 303-308. *)
Definition after_trim : HCL_Instance_Record C :=
  drop_unneeded (rgr_best_start fit_result) with_fit.

(** [hw_delta] and [local_delta] of lines 264-265. *)
Definition hw_delta_of : double :=
  UTI_DiffTimespecsToDouble hw_ts (hw_ref clock).

Definition local_delta_of : double :=
  (UTI_DiffTimespecsToDouble local_ts (local_ref clock) / local_freq_of lcl)%Q.

(** [n_samples] when the shift is over (lines 260-270). *)
Definition shifted_count : Z :=
  if n_samples clock =? 0 then 0
  else if dle hw_delta_of 0%Q
          || dlt local_delta_of (min_separation clock / 2)%Q
       then 0
       else if n_samples clock >=? max_samples clock
            then n_samples clock - 1 else n_samples clock.

(** What the constructor establishes and every call keeps: the clamped
    bounds, the capacity of the two arrays, and the zero in their last
    cell. *)
Definition well_formed : Prop :=
  2 <= min_samples clock /\
  min_samples clock <= max_samples clock /\
  max_samples clock <= 64 /\
  length (x_data clock) = Z.to_nat (max_samples clock) /\
  length (y_data clock) = Z.to_nat (max_samples clock) /\
  x_data clock !! Z.to_nat (max_samples clock - 1) = Some 0%Q /\
  y_data clock !! Z.to_nat (max_samples clock - 1) = Some 0%Q.

End Phases.

(** The one thing asked of the fitter: the index it suggests for the
    trim is not negative. *)
Definition fitter_contract (C : Collaborators) : Prop :=
  forall x y n tol,
    rgr_valid (RGR_FindBestRobustRegression x y n tol) = true ->
    0 <= rgr_best_start (RGR_FindBestRobustRegression x y n tol).

(** ** Comparisons and macros *)

Lemma dlt_true (a b : double) : dlt a b = true <-> (a < b)%Q.
Proof.
  unfold dlt. rewrite Qlt_alt. destruct (a ?= b)%Q; split; congruence.
Qed.

Lemma dlt_false (a b : double) : dlt a b = false <-> (b <= a)%Q.
Proof.
  rewrite <- not_true_iff_false, dlt_true. split; intros H; lra.
Qed.

Lemma dgt_true (a b : double) : dgt a b = true <-> (b < a)%Q.
Proof. apply dlt_true. Qed.

Lemma dgt_false (a b : double) : dgt a b = false <-> (a <= b)%Q.
Proof. apply dlt_false. Qed.

Lemma dle_true (a b : double) : dle a b = true <-> (a <= b)%Q.
Proof. unfold dle. rewrite negb_true_iff. apply dlt_false. Qed.

Lemma dle_false (a b : double) : dle a b = false <-> (b < a)%Q.
Proof. unfold dle. rewrite negb_false_iff. apply dlt_true. Qed.

Lemma MIN_min (x y : Z) : MIN x y = Z.min x y.
Proof. unfold MIN. destruct (Z.ltb_spec x y); lia. Qed.

Lemma MAX_max (x y : Z) : MAX x y = Z.max x y.
Proof. unfold MAX. rewrite Z.gtb_ltb. destruct (Z.ltb_spec y x); lia. Qed.

Lemma CLAMP_range (lo x hi : Z) :
  lo <= hi -> CLAMP lo x hi = Z.max lo (Z.min x hi) /\ lo <= CLAMP lo x hi <= hi.
Proof. unfold CLAMP. rewrite MAX_max, MIN_min. lia. Qed.

Lemma dlt_compat (a a' b b' : double) :
  a == a' -> b == b' -> dlt a b = dlt a' b'.
Proof. intros Ha Hb. unfold dlt. now rewrite Ha, Hb. Qed.

Lemma fMAX_compat (a a' b b' : double) :
  a == a' -> b == b' -> fMAX a b == fMAX a' b'.
Proof.
  intros Ha Hb. unfold fMAX, dgt. rewrite (dlt_compat b b' a a' Hb Ha).
  now destruct (dlt b' a').
Qed.

(** [fMAX] is the maximum of the rationals. *)
Lemma fMAX_max (a b : double) :
  (a <= fMAX a b)%Q /\ (b <= fMAX a b)%Q /\ (fMAX a b = a \/ fMAX a b = b).
Proof.
  unfold fMAX. destruct (dgt a b) eqn:E.
  - apply dgt_true in E. repeat split; try lra. now left.
  - apply dgt_false in E. repeat split; try lra. now right.
Qed.

(** ** The constructor *)

(** Lines 113-115 and 122-124, with the macros read as minimum and
    maximum. *)
Lemma CreateInstance_samples `{C : Collaborators}
  (mem : HCL_Instance_Record C) (gx gy : nat -> double) (mins maxs : Z)
  (sep prec : double) :
  let clock := HCL_CreateInstance mem gx gy mins maxs sep prec in
  min_samples clock = Z.max 2 (Z.min mins 64) /\
  max_samples clock = Z.max (min_samples clock) (Z.max 2 (Z.min maxs 64)) /\
  n_samples clock = 0.
Proof.
  cbn. unfold CLAMP, MIN_SAMPLES, MAX_SAMPLES.
  rewrite !MAX_max, !MIN_min. lia.
Qed.

(** C9: the constructor clamps [min_samples] and [max_samples] into
    [2, 64] and then raises [max_samples] to at least [min_samples];
    a requested [min_samples] of 1 becomes 2, a requested [max_samples]
    of 1000 becomes 64, and a requested [max_samples] below the requested
    [min_samples] ends equal to the stored [min_samples]. *)
Theorem CreateInstance_clamps `{C : Collaborators}
  (mem : HCL_Instance_Record C) (gx gy : nat -> double) (mins maxs : Z)
  (sep prec : double) :
  let clock := HCL_CreateInstance mem gx gy mins maxs sep prec in
  min_samples clock = Z.max 2 (Z.min mins 64) /\
  max_samples clock = Z.max (min_samples clock) (Z.max 2 (Z.min maxs 64)) /\
  2 <= min_samples clock <= 64 /\
  2 <= max_samples clock <= 64 /\
  min_samples clock <= max_samples clock /\
  (mins = 1 -> min_samples clock = 2) /\
  (maxs = 1000 -> max_samples clock = 64) /\
  (maxs < mins -> max_samples clock = min_samples clock).
Proof.
  intros clock.
  destruct (CreateInstance_samples mem gx gy mins maxs sep prec)
    as (Hmin & Hmax & _).
  fold clock in Hmin, Hmax. lia.
Qed.

Lemma CreateInstance_clamps_witness :
  3 < 5 /\
  max_samples (HCL_CreateInstance Bench.mem Bench.garbage Bench.garbage 5 3
                 1%Q 1%Q)
  = min_samples (HCL_CreateInstance Bench.mem Bench.garbage Bench.garbage 5 3
                   1%Q 1%Q).
Proof.
  split; [lia |].
  apply (CreateInstance_clamps Bench.mem Bench.garbage Bench.garbage 5 3
           1%Q 1%Q).
  lia.
Defined.

(** ** HCL_CookTime *)

(** C1: [HCL_CookTime] fails exactly when there is no valid fit; with a
    valid fit it succeeds with
    [cooked = local_ref + ((raw - hw_ref) / frequency - offset)] and
    reports [last_err], which is the [err] argument of the last
    [HCL_AccumulateSample] and is not computed again by the call. *)
Theorem CookTime_spec `{C : Collaborators} (clock : HCL_Instance_Record C)
  (raw : timespec) :
  (HCL_CookTime clock raw = None <-> valid_coefs clock = false) /\
  (valid_coefs clock = true ->
   HCL_CookTime clock raw
   = Some ((local_ref clock
            + ((raw - hw_ref clock) / frequency clock - offset clock))%Q,
           last_err clock)) /\
  (forall lcl hw_ts local_ts err,
     last_err (HCL_AccumulateSample lcl clock hw_ts local_ts err) = err).
Proof.
  unfold HCL_CookTime. repeat split.
  - destruct (valid_coefs clock); [discriminate | reflexivity].
  - intros ->. reflexivity.
  - intros ->. reflexivity.
  - intros lcl hw_ts local_ts err. unfold HCL_AccumulateSample.
    set (c1 := install_sample _ _ _ _).
    assert (H1 : last_err c1 = err) by reflexivity.
    destruct (valid_coefs (store_fit (fit_samples c1) c1)); cbn; [| exact H1].
    unfold sanity_check, drop_unneeded.
    repeat match goal with |- context [if ?b then _ else _] => destruct b end;
      exact H1.
Qed.

Lemma CookTime_spec_witness :
  valid_coefs Bench.on_line = true /\
  HCL_CookTime Bench.on_line 25%Q
  = Some ((local_ref Bench.on_line
           + ((25 - hw_ref Bench.on_line) / frequency Bench.on_line
              - offset Bench.on_line))%Q,
          last_err Bench.on_line).
Proof.
  split; [reflexivity |].
  apply (CookTime_spec Bench.on_line 25%Q). reflexivity.
Defined.

(** C5, as the code has it: with a valid fit, cooking [hw_ref] itself
    gives [local_ref - offset]; it gives [local_ref] exactly when the
    fitted offset is zero. *)
Theorem CookTime_at_hw_ref `{C : Collaborators}
  (clock : HCL_Instance_Record C) :
  valid_coefs clock = true ->
  exists cooked,
    HCL_CookTime clock (hw_ref clock) = Some (cooked, last_err clock) /\
    cooked == (local_ref clock - offset clock)%Q /\
    (cooked == local_ref clock <-> offset clock == 0%Q).
Proof.
  intros Hv.
  exists (local_ref clock
          + ((hw_ref clock - hw_ref clock) / frequency clock - offset clock))%Q.
  split.
  - unfold HCL_CookTime. rewrite Hv. reflexivity.
  - assert (E : ((hw_ref clock - hw_ref clock) / frequency clock == 0)%Q).
    { unfold Qdiv. ring. }
    split; [rewrite E; ring |].
    rewrite E. split; intros H; lra.
Qed.

Lemma CookTime_at_hw_ref_witness :
  valid_coefs Bench.off_line = true /\
  exists cooked,
    HCL_CookTime Bench.off_line (hw_ref Bench.off_line)
    = Some (cooked, last_err Bench.off_line) /\
    cooked == (local_ref Bench.off_line - offset Bench.off_line)%Q /\
    (cooked == local_ref Bench.off_line <-> offset Bench.off_line == 0%Q).
Proof.
  split; [reflexivity |].
  apply (CookTime_at_hw_ref Bench.off_line). reflexivity.
Defined.

(** C5, as the specification has it, fails: after four samples with the
    hardware clock 2 ms ahead and a fifth with the clocks equal, the fit
    is valid with offset 1/1250, and cooking [hw_ref = 40] gives
    [40 - 1/1250], not [local_ref = 40]. *)
Lemma CookTime_at_hw_ref_not_local_ref :
  reachable Bench.off_line /\
  valid_coefs Bench.off_line = true /\
  exists cooked e,
    HCL_CookTime Bench.off_line (hw_ref Bench.off_line) = Some (cooked, e) /\
    ~ cooked == local_ref Bench.off_line.
Proof.
  split; [| split].
  - unfold Bench.off_line, Bench.ahead, Bench.accumulate, Bench.fresh.
    repeat apply reach_accumulate. apply reach_create.
  - reflexivity.
  - eexists _, _. split; [vm_compute; reflexivity |].
    vm_compute. discriminate.
Qed.

(** ** HCL_AccumulateSample: fit, trim and sanity check *)

Section Accumulate.
Context `{C : Collaborators}.
Implicit Types (clock : HCL_Instance_Record C) (lcl : LCL).

(** The function is its phases, one after the other. *)
Lemma AccumulateSample_phases lcl clock hw_ts local_ts err :
  HCL_AccumulateSample lcl clock hw_ts local_ts err
  = if rgr_valid (fit_result lcl clock hw_ts local_ts err)
    then sanity_check err (after_trim lcl clock hw_ts local_ts err)
    else store_fit (fit_result lcl clock hw_ts local_ts err)
           (at_fit lcl clock hw_ts local_ts err).
Proof.
  unfold HCL_AccumulateSample, after_trim, with_fit, fit_result, at_fit.
  cbn. now destruct (rgr_valid _).
Qed.

Lemma drop_unneeded_frame bs clock :
  let clock' := drop_unneeded bs clock in
  offset clock' = offset clock /\ frequency clock' = frequency clock /\
  valid_coefs clock' = valid_coefs clock /\
  min_samples clock' = min_samples clock /\
  max_samples clock' = max_samples clock /\
  x_data clock' = x_data clock /\ y_data clock' = y_data clock.
Proof. unfold drop_unneeded. now destruct (_ >? _). Qed.

Lemma sanity_check_frame err clock :
  let clock' := sanity_check err clock in
  min_samples clock' = min_samples clock /\
  max_samples clock' = max_samples clock /\
  x_data clock' = x_data clock /\ y_data clock' = y_data clock.
Proof. unfold sanity_check. now destruct (fit_rejected _ _). Qed.

Lemma after_trim_fit lcl clock hw_ts local_ts err :
  let r := fit_result lcl clock hw_ts local_ts err in
  let clock' := after_trim lcl clock hw_ts local_ts err in
  offset clock' = rgr_b0 r /\
  frequency clock' = (rgr_b1 r / local_freq_of lcl)%Q /\
  valid_coefs clock' = rgr_valid r.
Proof.
  cbn. unfold after_trim.
  destruct (drop_unneeded_frame
              (rgr_best_start (fit_result lcl clock hw_ts local_ts err))
              (with_fit lcl clock hw_ts local_ts err)) as (-> & -> & -> & _).
  now repeat split.
Qed.

Lemma fit_rejected_true clock err :
  fit_rejected clock err = true <->
  (err < Qabs (offset clock))%Q \/ (2 / 3 < Qabs (frequency clock - 1))%Q.
Proof.
  unfold fit_rejected, fabs, MAX_FREQ_OFFSET.
  now rewrite orb_true_iff, !dgt_true.
Qed.

Lemma fit_rejected_false clock err :
  fit_rejected clock err = false <->
  (Qabs (offset clock) <= err)%Q /\ (Qabs (frequency clock - 1) <= 2 / 3)%Q.
Proof.
  unfold fit_rejected, fabs, MAX_FREQ_OFFSET.
  now rewrite orb_false_iff, !dgt_false.
Qed.

End Accumulate.

(** C2: when the fit succeeds and the sanity check fails ([|offset|]
    above the [err] of the sample just accumulated, or [|frequency - 1|]
    above 2/3), the call leaves [valid_coefs = false] and
    [n_samples = 0]; hence a call that leaves [valid_coefs] true leaves
    [|offset| <= err] and [|frequency - 1| <= 2/3]. *)
Theorem AccumulateSample_sanity `{C : Collaborators} (lcl : LCL)
  (clock : HCL_Instance_Record C) (hw_ts local_ts : timespec) (err : double) :
  let r := fit_result lcl clock hw_ts local_ts err in
  let clock' := HCL_AccumulateSample lcl clock hw_ts local_ts err in
  (rgr_valid r = true ->
   (err < Qabs (rgr_b0 r))%Q
   \/ (2 / 3 < Qabs (rgr_b1 r / local_freq_of lcl - 1))%Q ->
   valid_coefs clock' = false /\ n_samples clock' = 0) /\
  (valid_coefs clock' = true ->
   (Qabs (offset clock') <= err)%Q /\
   (Qabs (frequency clock' - 1) <= 2 / 3)%Q).
Proof.
  intros r clock'. subst clock'. rewrite AccumulateSample_phases. fold r.
  destruct (after_trim_fit lcl clock hw_ts local_ts err) as (Ho & Hf & Hv).
  fold r in Ho, Hf, Hv. unfold sanity_check. split.
  - intros -> Hbad.
    rewrite <- Ho, <- Hf in Hbad. apply fit_rejected_true in Hbad.
    now rewrite Hbad.
  - destruct (rgr_valid r) eqn:Er; [| cbn; now rewrite Er].
    destruct (fit_rejected _ err) eqn:Ej; [discriminate |].
    intros _. now apply fit_rejected_false.
Qed.

(** Four samples with the hardware clock 2 ms ahead, then one with the
    clocks equal: the fitted offset is 1/1250.  With [err = 1/10000] the
    check rejects the fit, with [err = 1/100] it stands. *)
Lemma AccumulateSample_sanity_witness :
  (valid_coefs (Bench.accumulate 40%Q 40%Q (1 # 10000) Bench.ahead) = false
   /\ n_samples (Bench.accumulate 40%Q 40%Q (1 # 10000) Bench.ahead) = 0)
  /\ ((Qabs (offset (Bench.accumulate 40%Q 40%Q (1 # 100) Bench.ahead))
       <= 1 # 100)%Q
      /\ (Qabs (frequency (Bench.accumulate 40%Q 40%Q (1 # 100) Bench.ahead)
                - 1)
          <= 2 / 3)%Q).
Proof.
  split.
  - apply (AccumulateSample_sanity Bench.lcl Bench.ahead 40%Q 40%Q
             (1 # 10000)).
    + vm_compute. reflexivity.
    + left. vm_compute. reflexivity.
  - apply (AccumulateSample_sanity Bench.lcl Bench.ahead 40%Q 40%Q
             (1 # 100)).
    vm_compute. reflexivity.
Defined.

(** ** Loops *)

(** The invariant rule of [for (i = lo; i < hi; i++)]. *)
Lemma for_up_inv {S : Type} (P : Z -> S -> Prop) (body : Z -> S -> S)
  (lo hi : Z) :
  (forall i s, lo <= i < hi -> P i s -> P (i + 1) (body i s)) ->
  forall fuel i s,
    lo <= i -> Z.of_nat fuel = hi - i -> P i s ->
    P hi (for_up fuel i hi body s).
Proof.
  intros Hstep fuel. induction fuel as [| k IH]; intros i s Hlo Hfuel HP.
  - cbn. now replace hi with i by lia.
  - cbn. destruct (Z.ltb_spec i hi); [| lia].
    apply IH; [lia | lia |]. apply Hstep; [lia | exact HP].
Qed.

Lemma for_loop_inv {S : Type} (P : Z -> S -> Prop) (body : Z -> S -> S)
  (lo hi : Z) (s : S) :
  (forall i s, lo <= i < hi -> P i s -> P (i + 1) (body i s)) ->
  P lo s -> P (Z.max lo hi) (for_loop lo hi body s).
Proof.
  intros Hstep HP. unfold for_loop.
  destruct (Z.le_gt_cases lo hi) as [Hle | Hgt].
  - rewrite Z.max_r by lia. apply (for_up_inv P body lo hi Hstep); [lia | lia | exact HP].
  - rewrite Z.max_l by lia. replace (Z.to_nat (hi - lo)) with O by lia. exact HP.
Qed.

Lemma for_loop_empty {S : Type} (body : Z -> S -> S) (lo hi : Z) (s : S) :
  hi <= lo -> for_loop lo hi body s = s.
Proof. intros H. unfold for_loop. now replace (Z.to_nat (hi - lo)) with O by lia. Qed.

(** ** The shift of the old samples *)

Section Shift.
Context `{C : Collaborators}.
Implicit Types (clock : HCL_Instance_Record C) (lcl : LCL).

Lemma aset_length (a : list double) (i : Z) (v : double) :
  length (aset a i v) = length a.
Proof. unfold aset. destruct (0 <=? i); [apply length_insert | reflexivity]. Qed.

Lemma aset_other (a : list double) (i : Z) (v : double) (k : nat) :
  i < Z.of_nat k -> aset a i v !! k = a !! k.
Proof.
  intros H. unfold aset. destruct (Z.leb_spec 0 i); [| reflexivity].
  apply list_lookup_insert_ne. lia.
Qed.

(** The loop of lines 272-275 touches the two arrays and nothing else;
    it keeps their lengths and every cell from [hi - 1] upwards. *)
Lemma shift_loop_shape (hd ld : double) (lo hi : Z) clock :
  exists X Y,
    for_loop lo hi (shift_body hd ld) clock
    = set_x_data X (set_y_data Y clock) /\
    length X = length (x_data clock) /\
    length Y = length (y_data clock) /\
    forall k : nat, hi - 1 <= Z.of_nat k ->
      X !! k = x_data clock !! k /\ Y !! k = y_data clock !! k.
Proof.
  pose (P := fun (_ : Z) (s : HCL_Instance_Record C) =>
    exists X Y,
      s = set_x_data X (set_y_data Y clock) /\
      length X = length (x_data clock) /\
      length Y = length (y_data clock) /\
      forall k : nat, hi - 1 <= Z.of_nat k ->
        X !! k = x_data clock !! k /\ Y !! k = y_data clock !! k).
  apply (for_loop_inv P (shift_body hd ld) lo hi clock).
  - intros i s Hi (X & Y & -> & HX & HY & Hk).
    exists (aset X (i - 1) (aget X i - ld)%Q),
           (aset Y (i - 1) (aget Y i - hd)%Q).
    split; [reflexivity |]. rewrite !aset_length. repeat split; try assumption.
    + rewrite aset_other by lia. now apply Hk.
    + rewrite aset_other by lia. now apply Hk.
  - exists (x_data clock), (y_data clock).
    split; [now destruct clock |]. repeat split; reflexivity.
Qed.

Lemma shift_old_samples_shape lcl clock hw_ts local_ts :
  exists X Y,
    shift_old_samples lcl clock hw_ts local_ts
    = set_x_data X (set_y_data Y
        (set_n_samples (shifted_count lcl clock hw_ts local_ts) clock)) /\
    length X = length (x_data clock) /\
    length Y = length (y_data clock) /\
    forall k : nat, max_samples clock - 1 <= Z.of_nat k ->
      X !! k = x_data clock !! k /\ Y !! k = y_data clock !! k.
Proof.
  unfold shift_old_samples, shifted_count, hw_delta_of, local_delta_of.
  destruct (n_samples clock =? 0) eqn:E0.
  - exists (x_data clock), (y_data clock). apply Z.eqb_eq in E0.
    split; [destruct clock; cbn in *; now subst |]. repeat split; reflexivity.
  - set (c1 := if n_samples clock >=? max_samples clock then _ else clock).
    assert (H1 : hw_ref c1 = hw_ref clock /\ local_ref c1 = local_ref clock /\
                 min_separation c1 = min_separation clock /\
                 max_samples c1 = max_samples clock /\
                 x_data c1 = x_data clock /\ y_data c1 = y_data clock /\
                 set_n_samples 0 c1 = set_n_samples 0 clock /\
                 c1 = set_n_samples
                        (if n_samples clock >=? max_samples clock
                         then n_samples clock - 1 else n_samples clock) clock).
    { subst c1. destruct (_ >=? _); repeat split; now destruct clock. }
    destruct H1 as (-> & -> & -> & Hm & Hx & Hy & Hz & Hc).
    set (d := _ || _).
    set (c2 := if d then _ else c1).
    destruct (shift_loop_shape
                (UTI_DiffTimespecsToDouble hw_ts (hw_ref clock))
                (UTI_DiffTimespecsToDouble local_ts (local_ref clock)
                 / local_freq_of lcl)%Q
                (max_samples c2 - n_samples c2) (max_samples c2) c2)
      as (X & Y & -> & HX & HY & Hk).
    assert (H2 : max_samples c2 = max_samples clock /\
                 x_data c2 = x_data clock /\ y_data c2 = y_data clock).
    { subst c2. destruct d; cbn; auto. }
    destruct H2 as (Hm2 & Hx2 & Hy2).
    exists X, Y. rewrite <- Hx2, <- Hy2, <- Hm2. repeat split; try assumption.
    + subst c2. destruct d; [now rewrite Hz |]. rewrite Hc. reflexivity.
    + now apply Hk.
    + now apply Hk.
Qed.

End Shift.

(** ** What the calls keep *)

Section Invariants.
Context `{C : Collaborators}.
Implicit Types (clock : HCL_Instance_Record C) (lcl : LCL).

(** The fields that [HCL_AccumulateSample] does not touch after the
    shift, whichever way the call ends. *)
Lemma AccumulateSample_arrays lcl clock hw_ts local_ts err :
  let clock' := HCL_AccumulateSample lcl clock hw_ts local_ts err in
  let shifted := shift_old_samples lcl clock hw_ts local_ts in
  min_samples clock' = min_samples shifted /\
  max_samples clock' = max_samples shifted /\
  x_data clock' = x_data shifted /\ y_data clock' = y_data shifted.
Proof.
  intros clock' shifted. subst clock'. rewrite AccumulateSample_phases.
  unfold after_trim, with_fit, at_fit.
  generalize (fit_result lcl clock hw_ts local_ts err). intros r.
  fold shifted. generalize shifted. clear. intros s.
  destruct (rgr_valid r); [| now repeat split].
  destruct (sanity_check_frame err
              (drop_unneeded (rgr_best_start r)
                 (set_frequency (rgr_b1 r / local_freq_of lcl)%Q
                    (store_fit r (install_sample s hw_ts local_ts err)))))
    as (-> & -> & -> & ->).
  destruct (drop_unneeded_frame (rgr_best_start r)
              (set_frequency (rgr_b1 r / local_freq_of lcl)%Q
                 (store_fit r (install_sample s hw_ts local_ts err))))
    as (_ & _ & _ & -> & -> & -> & ->).
  now repeat split.
Qed.

Lemma AccumulateSample_well_formed lcl clock hw_ts local_ts err :
  well_formed clock ->
  well_formed (HCL_AccumulateSample lcl clock hw_ts local_ts err).
Proof.
  unfold well_formed. intros (H2 & Hmm & H64 & Lx & Ly & Zx & Zy).
  destruct (AccumulateSample_arrays lcl clock hw_ts local_ts err)
    as (-> & -> & -> & ->).
  destruct (shift_old_samples_shape lcl clock hw_ts local_ts)
    as (X & Y & -> & HX & HY & Hk).
  cbn [x_data y_data min_samples max_samples set_x_data set_y_data
         set_n_samples].
  destruct (Hk (Z.to_nat (max_samples clock - 1))) as [Kx Ky]; [lia |].
  rewrite HX, HY. repeat split; try assumption.
  - exact (eq_trans Kx Zx).
  - exact (eq_trans Ky Zy).
Qed.

(** [HCL_ProcessReadings] changes the estimator and nothing else. *)
Lemma ProcessReadings_state lcl clock tss :
  exists q, snd (HCL_ProcessReadings lcl clock tss) = set_delay_quants q clock.
Proof.
  unfold HCL_ProcessReadings.
  destruct (_ <? 1); [exists (delay_quants clock); now destruct clock |].
  destruct (scan_delays _ _ _ _) as [q | sc]; [now exists q |].
  exists (sc_quants sc).
  destruct (delay_band _ _) as [lo hi].
  destruct (_ >? 0); [reflexivity |].
  now destruct (fallback_accepted _ _ _).
Qed.

Lemma handle_slew_well_formed cooked dfreq doffset clock :
  well_formed clock -> well_formed (handle_slew cooked dfreq doffset clock).
Proof.
  intros H. unfold handle_slew.
  set (c1 := if n_samples clock =? 0 then clock else _).
  assert (H1 : well_formed c1) by (subst c1; destruct (_ =? 0); exact H).
  destruct (valid_coefs c1); exact H1.
Qed.

Lemma CreateInstance_well_formed (mem : HCL_Instance_Record C) gx gy mins maxs
  sep prec :
  well_formed (HCL_CreateInstance mem gx gy mins maxs sep prec).
Proof.
  destruct (CreateInstance_samples mem gx gy mins maxs sep prec)
    as (Hmin & Hmax & _).
  cbv zeta in Hmin, Hmax.
  assert (Hr2 : 2 <= max_samples
                       (HCL_CreateInstance mem gx gy mins maxs sep prec) <= 64)
    by lia.
  unfold well_formed. repeat split; try lia.
  all: revert Hr2; cbn; set (m := MAX _ _); intros Hr2.
  all: unfold aset, MallocArray;
    destruct (Z.leb_spec 0 (m - 1)) as [_ | Hneg]; [| lia].
  - now rewrite length_insert, length_map, length_seq.
  - now rewrite length_insert, length_map, length_seq.
  - apply list_lookup_insert_eq. rewrite length_map, length_seq. lia.
  - apply list_lookup_insert_eq. rewrite length_map, length_seq. lia.
Qed.

(** The constructor writes the last cell of each array and leaves every
    other cell as the allocator returned it. *)
Lemma CreateInstance_arrays (mem : HCL_Instance_Record C) gx gy mins maxs
  sep prec (k : nat) :
  let clock := HCL_CreateInstance mem gx gy mins maxs sep prec in
  Z.of_nat k < max_samples clock - 1 ->
  x_data clock !! k = Some (gx k) /\ y_data clock !! k = Some (gy k).
Proof.
  intros clock Hk.
  destruct (CreateInstance_samples mem gx gy mins maxs sep prec)
    as (Hmin & Hmax & _).
  fold clock in Hmin, Hmax.
  revert Hk Hmax. subst clock. cbn. set (m := MAX _ _). intros Hk _.
  unfold aset, MallocArray.
  destruct (Z.leb_spec 0 (m - 1)) as [_ | Hneg]; [| lia].
  rewrite !list_lookup_insert_ne by lia.
  rewrite !list_lookup_fmap, !lookup_seq_lt by lia. now split.
Qed.

Lemma reachable_well_formed clock : reachable clock -> well_formed clock.
Proof.
  induction 1 as [mem gx gy mins maxs sep prec
                 | lcl clock hw_ts local_ts err _ IH
                 | lcl clock tss _ IH
                 | cooked dfreq doffset clock _ IH].
  - apply CreateInstance_well_formed.
  - now apply AccumulateSample_well_formed.
  - destruct (ProcessReadings_state lcl clock tss) as [q ->]. exact IH.
  - now apply handle_slew_well_formed.
Qed.

(** The newest cell of the live window is the last cell of the array. *)
Lemma live_window_last clock (a : list double) :
  1 <= n_samples clock ->
  length a = Z.to_nat (max_samples clock) ->
  last (live_window clock a) = a !! Z.to_nat (max_samples clock - 1).
Proof.
  intros Hn La. unfold live_window.
  rewrite take_ge by (rewrite length_drop; lia).
  rewrite !last_lookup, length_drop, lookup_drop. f_equal. lia.
Qed.

End Invariants.

(** C10: in every reachable instance the last cell of [x_data] and of
    [y_data] holds zero: the constructor writes it, and no call writes a
    cell that high again.  So whenever a sample is live, the newest one
    is the pair (0, 0) that the fitter sees at the end of its window. *)
Theorem last_slot_zero `{C : Collaborators} (clock : HCL_Instance_Record C) :
  reachable clock ->
  x_data clock !! Z.to_nat (max_samples clock - 1) = Some 0%Q /\
  y_data clock !! Z.to_nat (max_samples clock - 1) = Some 0%Q /\
  (1 <= n_samples clock ->
   last (live_window clock (x_data clock)) = Some 0%Q /\
   last (live_window clock (y_data clock)) = Some 0%Q).
Proof.
  intros Hr. destruct (reachable_well_formed clock Hr)
    as (_ & _ & _ & Lx & Ly & Zx & Zy).
  repeat split; try assumption.
  - now rewrite live_window_last.
  - now rewrite live_window_last.
Qed.

Lemma last_slot_zero_witness :
  reachable Bench.on_line /\
  x_data Bench.on_line !! Z.to_nat (max_samples Bench.on_line - 1) = Some 0%Q /\
  y_data Bench.on_line !! Z.to_nat (max_samples Bench.on_line - 1) = Some 0%Q.
Proof.
  assert (Hr : reachable Bench.on_line).
  { unfold Bench.on_line, Bench.two_samples, Bench.accumulate, Bench.fresh.
    repeat apply reach_accumulate. apply reach_create. }
  split; [exact Hr |].
  destruct (last_slot_zero Bench.on_line Hr) as (Hx & Hy & _).
  split; assumption.
Defined.

(** ** HCL_AccumulateSample: the trim and the discontinuity *)

Section Counts.
Context `{C : Collaborators}.
Implicit Types (clock : HCL_Instance_Record C) (lcl : LCL).

Lemma at_fit_counts lcl clock hw_ts local_ts err :
  n_samples (at_fit lcl clock hw_ts local_ts err)
  = shifted_count lcl clock hw_ts local_ts + 1 /\
  min_samples (at_fit lcl clock hw_ts local_ts err) = min_samples clock /\
  max_samples (at_fit lcl clock hw_ts local_ts err) = max_samples clock.
Proof.
  unfold at_fit.
  destruct (shift_old_samples_shape lcl clock hw_ts local_ts)
    as (X & Y & -> & _).
  now repeat split.
Qed.

Lemma after_trim_count lcl clock hw_ts local_ts err :
  n_samples (after_trim lcl clock hw_ts local_ts err)
  = let n := n_samples (at_fit lcl clock hw_ts local_ts err) in
    if n >? min_samples clock
    then n - Z.min (rgr_best_start (fit_result lcl clock hw_ts local_ts err))
               (n - min_samples clock)
    else n.
Proof.
  destruct (at_fit_counts lcl clock hw_ts local_ts err) as (_ & Hmin & _).
  unfold after_trim, drop_unneeded.
  change (n_samples (with_fit lcl clock hw_ts local_ts err))
    with (n_samples (at_fit lcl clock hw_ts local_ts err)).
  change (min_samples (with_fit lcl clock hw_ts local_ts err))
    with (min_samples (at_fit lcl clock hw_ts local_ts err)).
  rewrite Hmin. cbv zeta.
  destruct (_ >? _); [| reflexivity].
  cbn [n_samples set_n_samples]. now rewrite MIN_min.
Qed.

End Counts.

(** C7: when the fit succeeds on a live count [n] above [min_samples],
    the trim takes exactly [min (best_start, n - min_samples)] samples
    away: the count stays at [min_samples] or above and falls by no more
    than the fitter suggests.  The sanity check then runs on that
    instance. *)
Theorem trim_step `{C : Collaborators} (lcl : LCL)
  (clock : HCL_Instance_Record C) (hw_ts local_ts : timespec) (err : double) :
  let n := n_samples (at_fit lcl clock hw_ts local_ts err) in
  let r := fit_result lcl clock hw_ts local_ts err in
  let trimmed := after_trim lcl clock hw_ts local_ts err in
  rgr_valid r = true ->
  min_samples clock < n ->
  n_samples trimmed = n - Z.min (rgr_best_start r) (n - min_samples clock) /\
  min_samples clock <= n_samples trimmed /\
  n - n_samples trimmed <= rgr_best_start r /\
  HCL_AccumulateSample lcl clock hw_ts local_ts err
  = sanity_check err trimmed.
Proof.
  intros n r trimmed Hv Hn.
  assert (E : n_samples trimmed
              = n - Z.min (rgr_best_start r) (n - min_samples clock)).
  { subst trimmed. rewrite after_trim_count. cbv zeta. fold n r.
    destruct (Z.gtb_spec n (min_samples clock)); [reflexivity | lia]. }
  repeat split; try lia.
  rewrite AccumulateSample_phases. fold r. now rewrite Hv.
Qed.

(** Four samples on one line, [min_samples = 3], suggested index 1: the
    fourth call trims the count from 4 to 3. *)
Lemma trim_step_witness :
  n_samples (after_trim Bench.lcl Bench.three_on_line 30%Q 30%Q (1 # 1000000))
  = 4 - Z.min 1 (4 - 3) /\
  n_samples (HCL_AccumulateSample Bench.lcl Bench.three_on_line 30%Q 30%Q
               (1 # 1000000)) = 3.
Proof.
  destruct (trim_step Bench.lcl Bench.three_on_line 30%Q 30%Q (1 # 1000000))
    as (E & _ & _ & F).
  - reflexivity.
  - reflexivity.
  - split; [exact E |]. rewrite F. reflexivity.
Defined.

(** C4, as the code has it: on an instance with [n_samples >= 1], a
    sample with [hw_delta <= 0] or [local_delta < min_separation / 2]
    resets the count to 0 before the new sample is counted and rebases
    nothing; the fitter then runs on the new sample alone, and the call
    returns with [n_samples = 1], or with 0 when a fit that succeeded is
    rejected by the sanity check. *)
Theorem discontinuity_resets `{C : Collaborators} (lcl : LCL)
  (clock : HCL_Instance_Record C) (hw_ts local_ts : timespec) (err : double) :
  reachable clock ->
  1 <= n_samples clock ->
  (hw_delta_of clock hw_ts <= 0)%Q
  \/ (local_delta_of lcl clock local_ts < min_separation clock / 2)%Q ->
  let shifted := shift_old_samples lcl clock hw_ts local_ts in
  let clock' := HCL_AccumulateSample lcl clock hw_ts local_ts err in
  n_samples shifted = 0 /\
  x_data shifted = x_data clock /\ y_data shifted = y_data clock /\
  n_samples (at_fit lcl clock hw_ts local_ts err) = 1 /\
  n_samples clock'
  = (if rgr_valid (fit_result lcl clock hw_ts local_ts err)
        && negb (valid_coefs clock')
     then 0 else 1).
Proof.
  intros Hr Hn Hd shifted clock'.
  destruct (reachable_well_formed clock Hr) as (Hmin & _).
  assert (Hs : shifted_count lcl clock hw_ts local_ts = 0).
  { unfold shifted_count. destruct (Z.eqb_spec (n_samples clock) 0); [lia |].
    destruct (_ || _) eqn:E; [reflexivity |].
    apply orb_false_iff in E as [E1 E2].
    apply dle_false in E1. apply dlt_false in E2. lra. }
  assert (Hshift : shifted = set_n_samples 0 clock).
  { subst shifted. unfold shift_old_samples.
    destruct (Z.eqb_spec (n_samples clock) 0); [lia |].
    set (c1 := if n_samples clock >=? max_samples clock then _ else clock).
    assert (H1 : hw_ref c1 = hw_ref clock /\ local_ref c1 = local_ref clock /\
                 min_separation c1 = min_separation clock /\
                 set_n_samples 0 c1 = set_n_samples 0 clock).
    { subst c1. now destruct (_ >=? _). }
    destruct H1 as (-> & -> & -> & Hz).
    assert (E : dle (UTI_DiffTimespecsToDouble hw_ts (hw_ref clock)) 0%Q
                || dlt (UTI_DiffTimespecsToDouble local_ts (local_ref clock)
                        / local_freq_of lcl)%Q (min_separation clock / 2)%Q
                = true).
    { apply orb_true_iff. destruct Hd as [Hd | Hd];
        [left; now apply dle_true | right; now apply dlt_true]. }
    rewrite E, for_loop_empty by (cbn; lia). exact Hz. }
  destruct (at_fit_counts lcl clock hw_ts local_ts err) as (Hn1 & _ & _).
  rewrite Hs in Hn1. change (0 + 1) with 1 in Hn1.
  repeat split; try (rewrite Hshift; reflexivity); try exact Hn1.
  subst clock'. rewrite AccumulateSample_phases.
  destruct (rgr_valid _) eqn:Ev; [| exact Hn1].
  pose proof (after_trim_count lcl clock hw_ts local_ts err) as Ht.
  cbv zeta in Ht. rewrite Hn1 in Ht.
  destruct (Z.gtb_spec 1 (min_samples clock)); [lia |].
  destruct (after_trim_fit lcl clock hw_ts local_ts err) as (_ & _ & Hv).
  cbv zeta in Hv. rewrite Ev in Hv.
  unfold sanity_check. destruct (fit_rejected _ _); [reflexivity |].
  rewrite Hv. exact Ht.
Qed.

(** Two samples are live and the third has the hardware time of the
    second: the count goes to 0, then to 1. *)
Lemma discontinuity_resets_witness :
  n_samples (shift_old_samples Bench.lcl Bench.two_samples 10%Q 20%Q) = 0 /\
  n_samples (at_fit Bench.lcl Bench.two_samples 10%Q 20%Q (1 # 1000000)) = 1.
Proof.
  destruct (discontinuity_resets Bench.lcl Bench.two_samples 10%Q 20%Q
              (1 # 1000000)) as (H0 & _ & _ & H1 & _).
  - unfold Bench.two_samples, Bench.accumulate, Bench.fresh.
    repeat apply reach_accumulate. apply reach_create.
  - vm_compute. discriminate.
  - left. vm_compute. discriminate.
  - split; [exact H0 | exact H1].
Defined.

(** C4, as the specification has it, fails: with two samples live, a
    third sample whose hardware time has not advanced ([hw_delta = 0])
    leaves [n_samples = 1], not 0. *)
Lemma discontinuity_leaves_one_sample :
  reachable Bench.two_samples /\
  n_samples Bench.two_samples = 2 /\
  (hw_delta_of Bench.two_samples 10%Q <= 0)%Q /\
  n_samples (HCL_AccumulateSample Bench.lcl Bench.two_samples 10%Q 20%Q
               (1 # 1000000)) = 1 /\
  n_samples (HCL_AccumulateSample Bench.lcl Bench.two_samples 10%Q 20%Q
               (1 # 1000000)) <> 0.
Proof.
  split; [| split; [| split; [| split]]].
  - unfold Bench.two_samples, Bench.accumulate, Bench.fresh.
    repeat apply reach_accumulate. apply reach_create.
  - reflexivity.
  - vm_compute. discriminate.
  - reflexivity.
  - vm_compute. discriminate.
Qed.

(** ** HCL_ProcessReadings: the batch as a list *)

Section Readings.
Context `{C : Collaborators}.
Implicit Types (clock : HCL_Instance_Record C) (lcl : LCL).
Implicit Types (tss : list reading) (r : reading).

Lemma tss_at_lookup tss (k : nat) r :
  tss !! k = Some r ->
  tss_at tss (Z.of_nat k) 0 = reading_start r /\
  tss_at tss (Z.of_nat k) 1 = reading_hw r /\
  tss_at tss (Z.of_nat k) 2 = reading_end r.
Proof.
  intros H. unfold tss_at.
  destruct (Z.leb_spec 0 (Z.of_nat k)); [| lia].
  rewrite Nat2Z.id. unfold reading in *. rewrite H.
  now destruct r as [[t0 t1] t2].
Qed.

Lemma raw_delay_at_lookup tss (k : nat) r :
  tss !! k = Some r ->
  raw_delay_at tss (Z.of_nat k) = (reading_end r - reading_start r)%Q.
Proof.
  intros H. unfold raw_delay_at, UTI_DiffTimespecsToDouble.
  destruct (tss_at_lookup tss k r H) as (-> & _ & ->). reflexivity.
Qed.

Lemma delay_at_lookup freq tss (k : nat) r :
  tss !! k = Some r -> delay_at freq tss (Z.of_nat k) = reading_delay freq r.
Proof.
  intros H. unfold delay_at, reading_delay.
  now rewrite (raw_delay_at_lookup tss k r H).
Qed.

(** The invariant rule of a loop that may return. *)
Lemma for_up_ret_inv {S R : Type} (P : Z -> S -> Prop) (Q : R -> Prop)
  (body : Z -> S -> R + S) (lo hi : Z) :
  (forall i s, lo <= i < hi -> P i s ->
     match body i s with inl r => Q r | inr s' => P (i + 1) s' end) ->
  forall fuel i s,
    lo <= i -> Z.of_nat fuel = hi - i -> P i s ->
    match for_up_ret fuel i hi body s with
    | inl r => Q r
    | inr s' => P hi s'
    end.
Proof.
  intros Hstep fuel. induction fuel as [| k IH]; intros i s Hlo Hfuel HP.
  - cbn. now replace hi with i by lia.
  - cbn. destruct (Z.ltb_spec i hi); [| lia].
    specialize (Hstep i s (conj Hlo H) HP).
    destruct (body i s) as [r | s']; [exact Hstep |].
    apply IH; [lia | lia | exact Hstep].
Qed.

(** A reading with a negative delay stops the first loop. *)
Lemma scan_delays_negative freq tss (j : nat) r q :
  tss !! j = Some r ->
  (reading_delay freq r < 0)%Q ->
  exists q', scan_delays freq tss (Z.of_nat (length tss)) q = inl q'.
Proof.
  intros Hj Hneg. unfold scan_delays.
  pose proof (lookup_lt_Some _ _ _ Hj) as Hlt.
  assert (Hstep : forall i (s : scan_state),
             0 <= i < Z.of_nat (length tss) -> i <= Z.of_nat j ->
             match scan_body freq tss i s with
             | inl _ => True
             | inr _ => i + 1 <= Z.of_nat j
             end).
  { intros i s Hi Hle. unfold scan_body.
    destruct (dlt (delay_at freq tss i) 0%Q) eqn:E; [exact I |].
    destruct (Z.eq_dec i (Z.of_nat j)) as [-> | Hne]; [| lia].
    rewrite (delay_at_lookup freq tss j r Hj) in E.
    apply dlt_false in E. exfalso. exact (Qlt_not_le _ _ Hneg E). }
  pose proof (for_up_ret_inv
                (fun i (_ : scan_state) => i <= Z.of_nat j)
                (fun _ : QNT_Instance => True)
                (scan_body freq tss) 0 (Z.of_nat (length tss)) Hstep
                (Z.to_nat (Z.of_nat (length tss))) 0 (mkScan 0%Q 0 q)
                ltac:(lia) ltac:(lia) (Nat2Z.is_nonneg j)) as Hinv.
  cbv beta in Hinv.
  destruct (for_up_ret _ _ _ _ _) as [q' | s']; [now exists q' | lia].
Qed.

End Readings.

(** C8: a batch in which some reading has a negative delay
    [freq * (poll_end - poll_start)] makes the call return failure,
    whatever the other readings are. *)
Theorem ProcessReadings_negative_delay `{C : Collaborators} (lcl : LCL)
  (clock : HCL_Instance_Record C) (tss : list reading) (r : reading) :
  let freq := reading_freq lcl tss (Z.of_nat (length tss)) in
  In r tss ->
  (reading_delay freq r < 0)%Q ->
  fst (HCL_ProcessReadings lcl clock tss) = None.
Proof.
  intros freq Hin Hneg.
  apply list_elem_of_In, list_elem_of_lookup in Hin as [j Hj].
  pose proof (lookup_lt_Some _ _ _ Hj) as Hlt.
  unfold HCL_ProcessReadings.
  destruct (Z.ltb_spec (Z.of_nat (length tss)) 1); [reflexivity |].
  destruct (scan_delays_negative freq tss j r (delay_quants clock) Hj Hneg)
    as [q' Hq].
  fold freq. now rewrite Hq.
Qed.

(** Three readings, the second with its end before its start. *)
Lemma ProcessReadings_negative_delay_witness :
  fst (HCL_ProcessReadings Bench.lcl Bench.on_line
         [(30, 30, 30 + (15 # 10000)); (31, 31, 31 - (1 # 1000));
          (32, 32, 32 + (15 # 10000))]%Q) = None.
Proof.
  apply (ProcessReadings_negative_delay Bench.lcl Bench.on_line _
           (31, 31, 31 - (1 # 1000))%Q).
  - right. left. reflexivity.
  - reflexivity.
Defined.

(** ** HCL_ProcessReadings: the two loops *)

Section Loops.
Context `{C : Collaborators}.
Implicit Types (clock : HCL_Instance_Record C) (lcl : LCL).
Implicit Types (tss : list reading) (r : reading).

(** Without a negative delay the first loop runs to its end: the
    estimator has been fed every delay in order, and [min_reading] is a
    reading whose delay [min_delay] no other reading undercuts. *)
Lemma scan_delays_ok freq tss q :
  (forall r, In r tss -> (0 <= reading_delay freq r)%Q) ->
  exists sc,
    scan_delays freq tss (Z.of_nat (length tss)) q = inr sc /\
    sc_quants sc = fold_left QNT_Accumulate (map (reading_delay freq) tss) q /\
    (tss <> [] ->
     exists (k : nat) r,
       tss !! k = Some r /\
       sc_min_reading sc = Z.of_nat k /\
       sc_min_delay sc = reading_delay freq r /\
       forall r', In r' tss ->
         (reading_delay freq r <= reading_delay freq r')%Q).
Proof.
  intros Hpos.
  pose (P := fun (i : Z) (s : scan_state) =>
    sc_quants s
    = fold_left QNT_Accumulate
        (map (reading_delay freq) (take (Z.to_nat i) tss)) q /\
    (0 < i ->
     exists (k : nat) r,
       tss !! k = Some r /\
       sc_min_reading s = Z.of_nat k /\
       sc_min_delay s = reading_delay freq r /\
       forall (k' : nat) r', (k' < Z.to_nat i)%nat -> tss !! k' = Some r' ->
         (reading_delay freq r <= reading_delay freq r')%Q)).
  assert (Hstep : forall i s, 0 <= i < Z.of_nat (length tss) -> P i s ->
            match scan_body freq tss i s with
            | inl _ => False
            | inr s' => P (i + 1) s'
            end).
  { intros i s Hi [Hq Hm].
    destruct (lookup_lt_is_Some_2 tss (Z.to_nat i)) as [ri Hri]; [lia |].
    assert (Hd : delay_at freq tss i = reading_delay freq ri).
    { rewrite <- (delay_at_lookup freq tss (Z.to_nat i) ri Hri).
      f_equal. lia. }
    assert (Hin : In ri tss).
    { apply list_elem_of_In, list_elem_of_lookup. eauto. }
    unfold scan_body. rewrite Hd.
    destruct (dlt (reading_delay freq ri) 0%Q) eqn:E.
    { apply dlt_true in E. exact (Qlt_not_le _ _ E (Hpos ri Hin)). }
    unfold P. replace (Z.to_nat (i + 1)) with (S (Z.to_nat i)) by lia.
    split.
    - cbn [sc_quants]. rewrite (take_S_r tss (Z.to_nat i) ri Hri).
      rewrite map_app, fold_left_app. cbn [map fold_left].
      rewrite <- Hq. now destruct (_ || _).
    - intros _. destruct ((i =? 0) || dgt (sc_min_delay s)
                                          (reading_delay freq ri)) eqn:Eb.
      + exists (Z.to_nat i), ri. cbn [sc_min_delay sc_min_reading].
        repeat split; [exact Hri | lia |].
        intros k' r' Hk' Hr'.
        destruct (Nat.eq_dec k' (Z.to_nat i)) as [-> | Hne].
        { rewrite Hri in Hr'. injection Hr' as <-. apply Qle_refl. }
        apply orb_true_iff in Eb as [E0 | Egt]; [apply Z.eqb_eq in E0; lia |].
        apply dgt_true in Egt.
        destruct Hm as (k & r & Hk & _ & Hmd & Hall); [lia |].
        rewrite Hmd in Egt. apply Qle_trans with (reading_delay freq r).
        * now apply Qlt_le_weak.
        * apply (Hall k' r'); [lia | exact Hr'].
      + apply orb_false_iff in Eb as [E0 Egt].
        apply Z.eqb_neq in E0. apply dgt_false in Egt.
        destruct Hm as (k & r & Hk & Hmr & Hmd & Hall); [lia |].
        exists k, r. cbn [sc_min_delay sc_min_reading].
        repeat split; try assumption.
        intros k' r' Hk' Hr'.
        destruct (Nat.eq_dec k' (Z.to_nat i)) as [-> | Hne].
        { rewrite Hri in Hr'. injection Hr' as <-. now rewrite <- Hmd. }
        apply (Hall k' r'); [lia | exact Hr']. }
  assert (P0 : P 0 (mkScan 0%Q 0 q)).
  { split; [reflexivity | lia]. }
  pose proof (for_up_ret_inv P (fun _ => False) (scan_body freq tss) 0
                (Z.of_nat (length tss)) Hstep
                (Z.to_nat (Z.of_nat (length tss))) 0 (mkScan 0%Q 0 q)
                ltac:(lia) ltac:(lia) P0) as Hinv.
  unfold scan_delays.
  destruct (for_up_ret _ _ _ _ _) as [q' | sc]; [contradiction |].
  exists sc. destruct Hinv as [Hq Hm]. split; [reflexivity |]. split.
  - rewrite Hq, Nat2Z.id, firstn_all. reflexivity.
  - intros Hne. destruct Hm as (k & r & Hk & Hmr & Hmd & Hall).
    { destruct tss; [contradiction | cbn; lia]. }
    exists k, r. repeat split; try assumption.
    intros r' Hr'.
    apply list_elem_of_In, list_elem_of_lookup in Hr' as [k' Hk'].
    apply (Hall k' r'); [| exact Hk'].
    apply lookup_lt_Some in Hk'. lia.
Qed.

End Loops.

Section Combine.
Context `{C : Collaborators}.
Implicit Types (clock : HCL_Instance_Record C) (lcl : LCL).
Implicit Types (tss : list reading) (r : reading).

Lemma Qsum_snoc (l : list Q) (x : Q) : Qsum (l ++ [x]) == (Qsum l + x)%Q.
Proof.
  unfold Qsum. induction l as [| y l IH]; cbn [app fold_right]; [ring |].
  rewrite IH. ring.
Qed.

Lemma accepted_readings_snoc freq low high tss r :
  accepted_readings freq low high (tss ++ [r])
  = accepted_readings freq low high tss
    ++ (if in_band low high (reading_delay freq r) then [r] else []).
Proof.
  unfold accepted_readings. rewrite List.filter_app. cbn.
  now destruct (in_band _ _ _).
Qed.

(** The test of line 212 is the negation of "the delay is in the band". *)
Lemma band_test low high d :
  dlt d low || dgt d high = negb (in_band low high d).
Proof.
  unfold in_band, dle, dgt. now destruct (dlt d low), (dlt high d).
Qed.

(** The second loop counts the accepted readings and sums their delays,
    their hardware offsets and their local midpoints, all relative to
    the first reading. *)
Lemma combine_readings_sums freq low high tss :
  let acc := accepted_readings freq low high tss in
  let cb := combine_readings freq low high tss (Z.of_nat (length tss)) in
  cb_combined cb = Z.of_nat (length acc) /\
  cb_delay_sum cb == Qsum (map (reading_delay freq) acc) /\
  cb_hw_sum cb
  == Qsum (map (fun r => reading_hw r - tss_at tss 0 1)%Q acc) /\
  cb_local_sum cb
  == Qsum (map (fun r => (reading_start r - tss_at tss 0 0)
                         + (reading_end r - reading_start r) / 2)%Q acc).
Proof.
  pose (P := fun (i : Z) (s : combine_state) =>
    let acc := accepted_readings freq low high (take (Z.to_nat i) tss) in
    cb_combined s = Z.of_nat (length acc) /\
    cb_delay_sum s == Qsum (map (reading_delay freq) acc) /\
    cb_hw_sum s
    == Qsum (map (fun r => reading_hw r - tss_at tss 0 1)%Q acc) /\
    cb_local_sum s
    == Qsum (map (fun r => (reading_start r - tss_at tss 0 0)
                           + (reading_end r - reading_start r) / 2)%Q acc)).
  assert (Hstep : forall i s, 0 <= i < Z.of_nat (length tss) -> P i s ->
            P (i + 1) (combine_body freq low high tss i s)).
  { intros i s Hi (Hc & Hd & Hh & Hl).
    destruct (lookup_lt_is_Some_2 tss (Z.to_nat i)) as [ri Hri]; [lia |].
    assert (Ei : i = Z.of_nat (Z.to_nat i)) by lia.
    destruct (tss_at_lookup tss (Z.to_nat i) ri Hri) as (H0 & H1 & H2).
    pose proof (raw_delay_at_lookup tss (Z.to_nat i) ri Hri) as Hraw.
    rewrite <- Ei in H0, H1, H2, Hraw.
    unfold P, combine_body.
    replace (Z.to_nat (i + 1)) with (S (Z.to_nat i)) by lia.
    rewrite (take_S_r tss (Z.to_nat i) ri Hri), accepted_readings_snoc.
    rewrite Hraw, H0, H1. fold (reading_delay freq ri).
    rewrite band_test. unfold UTI_DiffTimespecsToDouble.
    destruct (in_band low high (reading_delay freq ri)); cbn [negb].
    - rewrite !map_app, length_app. cbn [map length cb_combined cb_delay_sum
                                          cb_hw_sum cb_local_sum].
      rewrite !Qsum_snoc, Hd, Hh, Hl. repeat split; try reflexivity. lia.
    - rewrite app_nil_r. now repeat split. }
  assert (P0 : P 0 (mkComb 0 0%Q 0%Q 0%Q)).
  { unfold P. cbn. repeat split; reflexivity. }
  pose proof (for_loop_inv P (combine_body freq low high tss) 0
                (Z.of_nat (length tss)) (mkComb 0 0%Q 0%Q 0%Q) Hstep P0)
    as Hinv.
  rewrite Z.max_r in Hinv by lia. unfold P in Hinv.
  rewrite Nat2Z.id, firstn_all in Hinv. exact Hinv.
Qed.

End Combine.

(** C6: when the batch has no negative delay and at least one reading
    has its delay inside the band [[low, high]], the call succeeds with
    [hw_ts = hw_0 + mean (hw_i - hw_0)],
    [local_ts = local_0 + mean (local_i - local_0 + raw_delay_i / 2)] and
    [err = max (mean delay / 2, precision)], the means taken over the
    accepted readings.  The band is the one the estimator gives once it
    has been fed every delay of this batch. *)
Theorem ProcessReadings_combines `{C : Collaborators} (lcl : LCL)
  (clock : HCL_Instance_Record C) (tss : list reading) :
  let freq := reading_freq lcl tss (Z.of_nat (length tss)) in
  let q := fold_left QNT_Accumulate (map (reading_delay freq) tss)
             (delay_quants clock) in
  let low := fst (delay_band lcl q) in
  let high := snd (delay_band lcl q) in
  let acc := accepted_readings freq low high tss in
  let hw_0 := tss_at tss 0 1 in
  let local_0 := tss_at tss 0 0 in
  (forall r, In r tss -> (0 <= reading_delay freq r)%Q) ->
  acc <> [] ->
  exists hw_ts local_ts err,
    fst (HCL_ProcessReadings lcl clock tss) = Some (hw_ts, local_ts, err) /\
    hw_ts == (hw_0 + mean (map (fun r => reading_hw r - hw_0) acc))%Q /\
    local_ts
    == (local_0
        + mean (map (fun r => (reading_start r - local_0)
                              + (reading_end r - reading_start r) / 2) acc))%Q /\
    err == fMAX (mean (map (reading_delay freq) acc) / 2)%Q (precision clock).
Proof.
  intros freq q low high acc hw_0 local_0 Hpos Hacc.
  assert (Hne : tss <> []).
  { intros ->. now apply Hacc. }
  unfold HCL_ProcessReadings.
  destruct (Z.ltb_spec (Z.of_nat (length tss)) 1) as [Hlen | _].
  { destruct tss; [contradiction | cbn in Hlen; lia]. }
  fold freq.
  destruct (scan_delays_ok freq tss (delay_quants clock) Hpos)
    as (sc & -> & Hq & _).
  cbn [delay_quants set_delay_quants]. rewrite Hq. fold q.
  subst low high. destruct (delay_band lcl q) as [low high]. cbn [fst snd] in *.
  destruct (combine_readings_sums freq low high tss) as (Hc & Hd & Hh & Hl).
  cbv zeta in Hc, Hd, Hh, Hl. fold acc hw_0 local_0 in Hc, Hd, Hh, Hl.
  set (cb := combine_readings freq low high tss (Z.of_nat (length tss))) in *.
  assert (Hpos' : 0 < cb_combined cb).
  { rewrite Hc. destruct acc; [contradiction | cbn; lia]. }
  destruct (Z.gtb_spec (cb_combined cb) 0); [| lia].
  eexists _, _, _. split; [reflexivity |].
  unfold UTI_AddDoubleToTimespec, mean. rewrite !length_map, <- Hc.
  fold hw_0 local_0. cbn [precision set_delay_quants].
  split; [| split].
  - now rewrite Hh.
  - now rewrite Hl.
  - apply fMAX_compat; [| reflexivity]. now rewrite Hd.
Qed.

(** Three readings with delays 1.5 ms, 1.2 ms and 5 ms against the band
    [1 ms, 2 ms]: the first two are combined. *)
Lemma ProcessReadings_combines_witness :
  exists hw_ts local_ts err,
    fst (HCL_ProcessReadings Bench.lcl Bench.on_line
           [(30, 30, 30 + (15 # 10000)); (31, 31, 31 + (12 # 10000));
            (32, 32, 32 + (5 # 1000))]%Q)
    = Some (hw_ts, local_ts, err) /\
    hw_ts == (30 + 1 / 2)%Q /\
    err == (135 # 200000)%Q.
Proof.
  destruct (ProcessReadings_combines Bench.lcl Bench.on_line
              [(30, 30, 30 + (15 # 10000)); (31, 31, 31 + (12 # 10000));
               (32, 32, 32 + (5 # 1000))]%Q)
    as (hw_ts & local_ts & err & E & Hhw & _ & Herr).
  - intros r [<- | [<- | [<- | []]]]; vm_compute; discriminate.
  - vm_compute. discriminate.
  - exists hw_ts, local_ts, err. split; [exact E |]. split.
    + rewrite Hhw. vm_compute. reflexivity.
    + rewrite Herr. vm_compute. reflexivity.
Defined.

(** ** HCL_ProcessReadings: the reading with minimum delay *)

Section Fallback.
Context `{C : Collaborators}.
Implicit Types (clock : HCL_Instance_Record C) (lcl : LCL).
Implicit Types (tss : list reading) (r : reading).

(** The test of lines 239-240 compares the signed difference
    [cooked local_ts - predicted local time] with [err]. *)
Lemma fallback_accepted_iff lcl clock (hw_ts local_ts : timespec)
  (err : double) :
  fallback_accepted lcl clock (hw_ts, local_ts, err) = true <->
  valid_coefs clock = false \/
  (err < LCL_CookTime lcl local_ts
         - (local_ref clock
            + ((hw_ts - hw_ref clock) / frequency clock - offset clock)))%Q.
Proof.
  unfold fallback_accepted, HCL_CookTime.
  destruct (valid_coefs clock); cbn [negb].
  - unfold UTI_DiffTimespecsToDouble, UTI_AddDoubleToTimespec.
    rewrite dgt_true. split; [now right | now intros [? | ?]].
  - split; [now left | reflexivity].
Qed.

(** When no reading is in the band, the call offers the reading with
    minimum delay and returns 1 exactly when [fallback_accepted] holds
    for it. *)
Lemma ProcessReadings_fallback lcl clock tss :
  let freq := reading_freq lcl tss (Z.of_nat (length tss)) in
  let q := fold_left QNT_Accumulate (map (reading_delay freq) tss)
             (delay_quants clock) in
  let low := fst (delay_band lcl q) in
  let high := snd (delay_band lcl q) in
  (forall r, In r tss -> (0 <= reading_delay freq r)%Q) ->
  tss <> [] ->
  accepted_readings freq low high tss = [] ->
  exists (k : nat) r,
    tss !! k = Some r /\
    (forall r', In r' tss -> (reading_delay freq r <= reading_delay freq r')%Q) /\
    let cand : sample :=
      (reading_hw r,
       (reading_start r + reading_delay freq r / freq / 2)%Q,
       fMAX (reading_delay freq r / 2)%Q (precision clock)) in
    fst (HCL_ProcessReadings lcl clock tss)
    = if fallback_accepted lcl clock cand then Some cand else None.
Proof.
  intros freq q low high Hpos Hne Hacc.
  unfold HCL_ProcessReadings.
  destruct (Z.ltb_spec (Z.of_nat (length tss)) 1) as [Hlen | _].
  { destruct tss; [contradiction | cbn in Hlen; lia]. }
  fold freq.
  destruct (scan_delays_ok freq tss (delay_quants clock) Hpos)
    as (sc & -> & Hq & Hm).
  destruct (Hm Hne) as (k & r & Hk & Hmr & Hmd & Hall).
  exists k, r. split; [exact Hk |]. split; [exact Hall |].
  cbn [delay_quants set_delay_quants]. rewrite Hq. fold q.
  subst low high. destruct (delay_band lcl q) as [low high]. cbn [fst snd] in *.
  destruct (combine_readings_sums freq low high tss) as (Hc & _).
  cbv zeta in Hc. rewrite Hacc in Hc. cbn [length] in Hc.
  rewrite Hc. change (Z.of_nat 0 >? 0) with false. cbv iota.
  unfold fallback_sample. rewrite Hmr, Hmd.
  destruct (tss_at_lookup tss k r Hk) as (-> & -> & _).
  unfold UTI_AddDoubleToTimespec. cbn [precision].
  set (cand := (reading_hw r, _, _)).
  change (fallback_accepted lcl (set_delay_quants q clock) cand)
    with (fallback_accepted lcl clock cand).
  now destruct (fallback_accepted lcl clock cand).
Qed.

End Fallback.

(** C3, on the code: the fit of [Bench.on_line] is valid and no reading
    of [Bench.spike_late] is in the band.  The candidate is
    [hw_ts = 30.1], [local_ts = 30.005], [err = 0.005]; the model
    predicts local time 30.1 for that [hw_ts], 0.095 s away from the
    candidate, and the call returns failure.  With the hardware time
    0.1 s early instead ([Bench.spike_early]) the call returns its
    candidate. *)
Theorem fallback_rejects_late_prediction :
  let freq := reading_freq Bench.lcl Bench.spike_late 1 in
  let band := delay_band Bench.lcl (delay_quants Bench.on_line) in
  valid_coefs Bench.on_line = true /\
  accepted_readings freq (fst band) (snd band) Bench.spike_late = [] /\
  (exists hw_ts local_ts err predicted e,
     fallback_sample Bench.on_line freq Bench.spike_late
       (delay_at freq Bench.spike_late 0) 0 = (hw_ts, local_ts, err) /\
     hw_ts == (30 + (1 # 10))%Q /\
     local_ts == (30 + (5 # 1000))%Q /\
     err == (5 # 1000)%Q /\
     HCL_CookTime Bench.on_line hw_ts = Some (predicted, e) /\
     predicted == (30 + (1 # 10))%Q /\
     (err < Qabs (predicted - Bench.lcl.(LCL_CookTime) local_ts))%Q) /\
  fst (HCL_ProcessReadings Bench.lcl Bench.on_line Bench.spike_late) = None /\
  (exists hw_ts local_ts err,
     fst (HCL_ProcessReadings Bench.lcl Bench.on_line Bench.spike_early)
     = Some (hw_ts, local_ts, err) /\
     hw_ts == (30 - (1 # 10))%Q /\
     local_ts == (30 + (5 # 1000))%Q /\
     err == (5 # 1000)%Q).
Proof.
  cbv zeta. split; [vm_compute; reflexivity |].
  split; [vm_compute; reflexivity |].
  split; [| split; [vm_compute; reflexivity |]].
  - eexists _, _, _, _, _. split; [vm_compute; reflexivity |].
    split; [vm_compute; reflexivity |].
    split; [vm_compute; reflexivity |].
    split; [vm_compute; reflexivity |].
    split; [vm_compute; reflexivity |].
    split; vm_compute; reflexivity.
  - eexists _, _, _. split; [vm_compute; reflexivity |].
    split; [vm_compute; reflexivity |].
    split; vm_compute; reflexivity.
Qed.

(** ** The live count stays inside the arrays *)

Section Bounds.
Context `{C : Collaborators}.
Implicit Types (clock : HCL_Instance_Record C) (lcl : LCL).

Lemma shifted_count_bounds lcl clock hw_ts local_ts :
  1 <= max_samples clock ->
  0 <= n_samples clock <= max_samples clock ->
  0 <= shifted_count lcl clock hw_ts local_ts <= max_samples clock - 1.
Proof.
  intros Hmax Hn. unfold shifted_count.
  destruct (Z.eqb_spec (n_samples clock) 0); [lia |].
  destruct (_ || _); [lia |].
  destruct (Z.geb_spec (n_samples clock) (max_samples clock)); lia.
Qed.

Lemma AccumulateSample_count lcl clock hw_ts local_ts err :
  fitter_contract C ->
  well_formed clock ->
  0 <= n_samples clock <= max_samples clock ->
  0 <= n_samples (HCL_AccumulateSample lcl clock hw_ts local_ts err)
    <= max_samples clock.
Proof.
  intros Hfit (Hmin & Hmm & _) Hn.
  pose proof (shifted_count_bounds lcl clock hw_ts local_ts ltac:(lia) Hn)
    as Hs.
  destruct (at_fit_counts lcl clock hw_ts local_ts err) as (Hn1 & _ & _).
  rewrite AccumulateSample_phases.
  destruct (rgr_valid (fit_result lcl clock hw_ts local_ts err)) eqn:Ev.
  - pose proof (after_trim_count lcl clock hw_ts local_ts err) as Ht.
    cbv zeta in Ht.
    assert (Hbs : 0 <= rgr_best_start (fit_result lcl clock hw_ts local_ts err))
      by (apply Hfit; exact Ev).
    assert (Hb : 0 <= n_samples (after_trim lcl clock hw_ts local_ts err)
                   <= max_samples clock).
    { rewrite Ht. destruct (Z.gtb_spec
                              (n_samples (at_fit lcl clock hw_ts local_ts err))
                              (min_samples clock)); lia. }
    unfold sanity_check. destruct (fit_rejected _ _); [cbn; lia | exact Hb].
  - change (n_samples (store_fit (fit_result lcl clock hw_ts local_ts err)
                         (at_fit lcl clock hw_ts local_ts err)))
      with (n_samples (at_fit lcl clock hw_ts local_ts err)).
    lia.
Qed.

(** X6: with a fitter that honours its contract the live count of a
    reachable instance is between 0 and [max_samples], itself at most
    64: the shift loop and the window stay inside the arrays, and no
    [int] of the module overflows. *)
Lemma n_samples_bounds clock :
  fitter_contract C -> reachable clock ->
  0 <= n_samples clock <= max_samples clock /\ max_samples clock <= 64.
Proof.
  intros Hfit Hr.
  split; [| now destruct (reachable_well_formed clock Hr) as (_ & _ & ? & _)].
  induction Hr as [mem gx gy mins maxs sep prec
                  | lcl clock hw_ts local_ts err Hr IH
                  | lcl clock tss Hr IH
                  | cooked dfreq doffset clock Hr IH].
  - destruct (CreateInstance_samples mem gx gy mins maxs sep prec)
      as (Hmin & Hmax & ->).
    cbv zeta in Hmin, Hmax. lia.
  - pose proof (reachable_well_formed clock Hr) as Hwf.
    destruct (AccumulateSample_arrays lcl clock hw_ts local_ts err)
      as (_ & -> & _).
    destruct (shift_old_samples_shape lcl clock hw_ts local_ts)
      as (X & Y & -> & _).
    cbn [max_samples set_x_data set_y_data set_n_samples].
    now apply AccumulateSample_count.
  - destruct (ProcessReadings_state lcl clock tss) as [q ->]. exact IH.
  - unfold handle_slew.
    set (c1 := if n_samples clock =? 0 then clock else _).
    assert (H1 : n_samples c1 = n_samples clock /\
                 max_samples c1 = max_samples clock)
      by (subst c1; now destruct (_ =? 0)).
    destruct (valid_coefs c1); cbn [n_samples max_samples set_frequency];
      lia.
Qed.

End Bounds.

(** ** The first call and the multiplier *)

(** A new instance asks for a sample whatever the time. *)
Lemma NeedsNewSample_fresh `{C : Collaborators} (mem : HCL_Instance_Record C)
  gx gy mins maxs sep prec (now : timespec) :
  HCL_NeedsNewSample (HCL_CreateInstance mem gx gy mins maxs sep prec) now
  = true.
Proof. reflexivity. Qed.

(** The multiplier of lines 175-181 is the ratio of the cooked span of
    the batch to its raw span. *)
Lemma reading_freq_batch (lcl : LCL) (tss : list reading) (first last : reading) :
  tss !! 0%nat = Some first ->
  tss !! pred (length tss) = Some last ->
  reading_freq lcl tss (Z.of_nat (length tss)) == batch_freq lcl first last.
Proof.
  intros H0 Hl. unfold reading_freq, batch_freq.
  assert (Hlen : (0 < length tss)%nat) by (destruct tss; [discriminate | cbn; lia]).
  destruct (tss_at_lookup tss 0 first H0) as (E0 & _ & _).
  destruct (tss_at_lookup tss (pred (length tss)) last Hl) as (_ & _ & E2).
  replace (Z.of_nat (pred (length tss))) with (Z.of_nat (length tss) - 1)
    in E2 by lia.
  change (Z.of_nat 0) with 0 in E0. rewrite E0, E2.
  unfold UTI_CompareTimespecs, dlt, UTI_DiffTimespecsToDouble.
  destruct (Qcompare_spec (reading_start first) (reading_end last))
    as [He | Hlt | Hgt]; cbn; try reflexivity.
  field. split; intros Hz; lra.
Qed.

(** ** What one call of [HCL_AccumulateSample] leaves behind *)

Section AfterCall.
Context `{C : Collaborators}.
Implicit Types (clock : HCL_Instance_Record C) (lcl : LCL).

Lemma drop_unneeded_shape bs clock :
  drop_unneeded bs clock
  = set_n_samples (n_samples (drop_unneeded bs clock)) clock.
Proof.
  unfold drop_unneeded. destruct (_ >? _); [reflexivity | now destruct clock].
Qed.

Lemma sanity_check_shape err clock :
  sanity_check err clock
  = set_valid_coefs (valid_coefs (sanity_check err clock))
      (set_n_samples (n_samples (sanity_check err clock)) clock).
Proof.
  unfold sanity_check. destruct (fit_rejected _ _); [reflexivity |].
  now destruct clock.
Qed.

(** The scalar fields after the call: the references and the error are
    the arguments, the configuration is untouched. *)
Lemma AccumulateSample_refs lcl clock hw_ts local_ts err :
  let clock' := HCL_AccumulateSample lcl clock hw_ts local_ts err in
  hw_ref clock' = hw_ts /\ local_ref clock' = local_ts /\
  last_err clock' = err /\
  min_separation clock' = min_separation clock /\
  precision clock' = precision clock /\
  delay_quants clock' = delay_quants clock.
Proof.
  intros clock'. subst clock'. rewrite AccumulateSample_phases.
  unfold after_trim, with_fit, at_fit.
  generalize (fit_result lcl clock hw_ts local_ts err). intros r.
  destruct (shift_old_samples_shape lcl clock hw_ts local_ts)
    as (X & Y & -> & _).
  generalize (shifted_count lcl clock hw_ts local_ts). intros k.
  destruct (rgr_valid r); [| now repeat split].
  rewrite sanity_check_shape, drop_unneeded_shape.
  now repeat split.
Qed.

(** A call that leaves a valid fit went through the trim and passed the
    check of lines 303-304. *)
Lemma AccumulateSample_valid lcl clock hw_ts local_ts err :
  valid_coefs (HCL_AccumulateSample lcl clock hw_ts local_ts err) = true ->
  rgr_valid (fit_result lcl clock hw_ts local_ts err) = true /\
  HCL_AccumulateSample lcl clock hw_ts local_ts err
  = after_trim lcl clock hw_ts local_ts err /\
  (Qabs (offset (after_trim lcl clock hw_ts local_ts err)) <= err)%Q /\
  (Qabs (frequency (after_trim lcl clock hw_ts local_ts err) - 1) <= 2 / 3)%Q.
Proof.
  rewrite AccumulateSample_phases.
  destruct (rgr_valid (fit_result lcl clock hw_ts local_ts err)) eqn:Ev.
  - unfold sanity_check.
    destruct (fit_rejected (after_trim lcl clock hw_ts local_ts err) err)
      eqn:Ej; [discriminate |].
    intros _. apply fit_rejected_false in Ej. now repeat split.
  - intros H. exfalso.
    change (valid_coefs (store_fit (fit_result lcl clock hw_ts local_ts err)
                           (at_fit lcl clock hw_ts local_ts err)))
      with (rgr_valid (fit_result lcl clock hw_ts local_ts err)) in H.
    congruence.
Qed.

Lemma shifted_count_nonneg lcl clock hw_ts local_ts :
  2 <= max_samples clock -> 0 <= n_samples clock ->
  0 <= shifted_count lcl clock hw_ts local_ts.
Proof.
  intros Hmax Hn. unfold shifted_count.
  destruct (Z.eqb_spec (n_samples clock) 0); [lia |].
  destruct (_ || _); [lia |].
  destruct (Z.geb_spec (n_samples clock) (max_samples clock)); lia.
Qed.

(** A valid fit always comes with a live sample and with an offset that
    the last error bound covers. *)
Lemma reachable_valid clock :
  reachable clock ->
  0 <= n_samples clock /\
  (valid_coefs clock = true ->
   1 <= n_samples clock /\ (Qabs (offset clock) <= last_err clock)%Q).
Proof.
  intros Hr.
  induction Hr as [mem gx gy mins maxs sep prec
                  | lcl clock hw_ts local_ts err Hr IH
                  | lcl clock tss Hr IH
                  | cooked dfreq doffset clock Hr IH].
  - split; [cbn; lia | cbn; discriminate].
  - destruct IH as [Hn _].
    destruct (reachable_well_formed clock Hr) as (Hmin & Hmm & _).
    pose proof (shifted_count_nonneg lcl clock hw_ts local_ts
                  ltac:(lia) Hn) as Hk.
    destruct (at_fit_counts lcl clock hw_ts local_ts err) as (Hn1 & _ & _).
    pose proof (after_trim_count lcl clock hw_ts local_ts err) as Ht.
    cbv zeta in Ht.
    assert (Htrim : 1 <= n_samples (after_trim lcl clock hw_ts local_ts err)).
    { rewrite Ht.
      destruct (Z.gtb_spec (n_samples (at_fit lcl clock hw_ts local_ts err))
                  (min_samples clock)); lia. }
    split.
    + rewrite AccumulateSample_phases.
      destruct (rgr_valid _).
      * unfold sanity_check. destruct (fit_rejected _ _); [cbn; lia | lia].
      * change (n_samples (store_fit (fit_result lcl clock hw_ts local_ts err)
                             (at_fit lcl clock hw_ts local_ts err)))
          with (n_samples (at_fit lcl clock hw_ts local_ts err)). lia.
    + intros Hv.
      destruct (AccumulateSample_refs lcl clock hw_ts local_ts err)
        as (_ & _ & -> & _).
      destruct (AccumulateSample_valid lcl clock hw_ts local_ts err Hv)
        as (_ & -> & Ho & _).
      split; [exact Htrim | exact Ho].
  - destruct (ProcessReadings_state lcl clock tss) as [q ->]. exact IH.
  - assert (H1 : n_samples (handle_slew cooked dfreq doffset clock)
                  = n_samples clock /\
                 valid_coefs (handle_slew cooked dfreq doffset clock)
                  = valid_coefs clock /\
                 offset (handle_slew cooked dfreq doffset clock)
                  = offset clock /\
                 last_err (handle_slew cooked dfreq doffset clock)
                  = last_err clock).
    { unfold handle_slew. clear. destruct clock as [? ? ? ? ? ? n ? ? ? v ? ? ?].
      cbn [n_samples valid_coefs set_local_ref].
      destruct (n =? 0), v; now repeat split. }
    destruct H1 as (-> & -> & -> & ->). exact IH.
Qed.

End AfterCall.

(** X1: in every reachable instance that holds a valid fit at least one
    sample is live and the fitted offset is within [last_err]; so
    [HCL_CookTime] maps [hw_ref] to a time within [last_err] of
    [local_ref].  Slews and batches of readings in between do not break
    this. *)
Theorem valid_fit_covers_reference `{C : Collaborators}
  (clock : HCL_Instance_Record C) :
  reachable clock ->
  valid_coefs clock = true ->
  1 <= n_samples clock /\
  (Qabs (offset clock) <= last_err clock)%Q /\
  exists cooked,
    HCL_CookTime clock (hw_ref clock) = Some (cooked, last_err clock) /\
    (Qabs (cooked - local_ref clock) <= last_err clock)%Q.
Proof.
  intros Hr Hv.
  destruct (reachable_valid clock Hr) as [_ H]. destruct (H Hv) as [Hn Ho].
  split; [exact Hn |]. split; [exact Ho |].
  exists (local_ref clock
          + ((hw_ref clock - hw_ref clock) / frequency clock - offset clock))%Q.
  split.
  - unfold HCL_CookTime. rewrite Hv. reflexivity.
  - assert (E : (local_ref clock
                 + ((hw_ref clock - hw_ref clock) / frequency clock
                    - offset clock) - local_ref clock == - offset clock)%Q).
    { unfold Qdiv. ring. }
    rewrite E, Qabs_opp. exact Ho.
Qed.

Lemma valid_fit_covers_reference_witness :
  1 <= n_samples Bench.off_line /\
  (Qabs (offset Bench.off_line) <= last_err Bench.off_line)%Q.
Proof.
  destruct (valid_fit_covers_reference Bench.off_line) as (Hn & Ho & _).
  - unfold Bench.off_line, Bench.ahead, Bench.accumulate, Bench.fresh.
    repeat apply reach_accumulate. apply reach_create.
  - vm_compute. reflexivity.
  - split; [exact Hn | exact Ho].
Defined.

(** X2: right after a call that leaves a valid fit, [HCL_CookTime]
    succeeds for every hardware time with the [err] of that call, keeps
    the order of hardware times, and stretches an interval of hardware
    time by a factor between 3/5 and 3 (the frequency is within 2/3 of
    1). *)
Theorem CookTime_after_accumulate `{C : Collaborators} (lcl : LCL)
  (clock : HCL_Instance_Record C) (hw_ts local_ts : timespec) (err : double)
  (raw1 raw2 : timespec) :
  let clock' := HCL_AccumulateSample lcl clock hw_ts local_ts err in
  valid_coefs clock' = true ->
  (raw1 < raw2)%Q ->
  exists cooked1 cooked2,
    HCL_CookTime clock' raw1 = Some (cooked1, err) /\
    HCL_CookTime clock' raw2 = Some (cooked2, err) /\
    (cooked1 < cooked2)%Q /\
    ((3 # 5) * (raw2 - raw1) <= cooked2 - cooked1)%Q /\
    (cooked2 - cooked1 <= 3 * (raw2 - raw1))%Q.
Proof.
  intros clock' Hv Hlt.
  destruct (AccumulateSample_refs lcl clock hw_ts local_ts err)
    as (Hhw & Hlo & He & _).
  destruct (AccumulateSample_valid lcl clock hw_ts local_ts err Hv)
    as (_ & Eq & _ & Hf).
  rewrite <- Eq in Hf. fold clock' in Hhw, Hlo, He, Hf.
  set (f := frequency clock') in *.
  apply Qabs_Qle_condition in Hf.
  assert (H23 : (2 / 3 == 2 # 3)%Q) by reflexivity. rewrite H23 in Hf.
  assert (Hf1 : (1 # 3 <= f)%Q) by lra.
  assert (Hf2 : (f <= 5 # 3)%Q) by lra.
  assert (Hpos : (0 < f)%Q) by lra.
  exists (local_ref clock' + ((raw1 - hw_ref clock') / f - offset clock'))%Q,
         (local_ref clock' + ((raw2 - hw_ref clock') / f - offset clock'))%Q.
  split; [unfold HCL_CookTime; rewrite Hv, <- He; reflexivity |].
  split; [unfold HCL_CookTime; rewrite Hv, <- He; reflexivity |].
  set (d := (raw2 - raw1)%Q).
  assert (Hd : (0 < d)%Q) by (subst d; lra).
  assert (E : (local_ref clock' + ((raw2 - hw_ref clock') / f - offset clock')
               - (local_ref clock'
                  + ((raw1 - hw_ref clock') / f - offset clock'))
               == d / f)%Q).
  { subst d. field. lra. }
  assert (Hlow : ((3 # 5) * d <= d / f)%Q).
  { apply Qle_shift_div_l; [exact Hpos |].
    assert (H0 : (0 <= d * ((5 # 3) - f))%Q)
      by (apply Qmult_le_0_compat; lra).
    lra. }
  assert (Hup : (d / f <= 3 * d)%Q).
  { apply Qle_shift_div_r; [exact Hpos |].
    assert (H0 : (0 <= d * (f - (1 # 3)))%Q)
      by (apply Qmult_le_0_compat; lra).
    lra. }
  split; [| split].
  - lra.
  - rewrite E. exact Hlow.
  - rewrite E. exact Hup.
Qed.

Lemma CookTime_after_accumulate_witness :
  exists cooked1 cooked2,
    HCL_CookTime Bench.off_line 41%Q = Some (cooked1, 1 # 100) /\
    HCL_CookTime Bench.off_line 42%Q = Some (cooked2, 1 # 100) /\
    (cooked1 < cooked2)%Q.
Proof.
  destruct (CookTime_after_accumulate Bench.lcl Bench.ahead 40%Q 40%Q
              (1 # 100) 41%Q 42%Q)
    as (c1 & c2 & H1 & H2 & Hlt & _).
  - vm_compute. reflexivity.
  - vm_compute. reflexivity.
  - exists c1, c2. split; [exact H1 |]. split; [exact H2 | exact Hlt].
Defined.

(** X3: when the fitter refuses the window, the call leaves no valid fit,
    so [HCL_CookTime] fails even if it succeeded before the call, while
    the samples stay: the count is the count after the shift plus one and
    the arrays are the shifted ones. *)
Theorem failed_fit_keeps_samples `{C : Collaborators} (lcl : LCL)
  (clock : HCL_Instance_Record C) (hw_ts local_ts : timespec) (err : double)
  (raw : timespec) :
  let clock' := HCL_AccumulateSample lcl clock hw_ts local_ts err in
  rgr_valid (fit_result lcl clock hw_ts local_ts err) = false ->
  valid_coefs clock' = false /\
  HCL_CookTime clock' raw = None /\
  n_samples clock' = shifted_count lcl clock hw_ts local_ts + 1 /\
  x_data clock' = x_data (shift_old_samples lcl clock hw_ts local_ts) /\
  y_data clock' = y_data (shift_old_samples lcl clock hw_ts local_ts).
Proof.
  intros clock' Hr.
  destruct (AccumulateSample_arrays lcl clock hw_ts local_ts err)
    as (_ & _ & Hx & Hy).
  destruct (at_fit_counts lcl clock hw_ts local_ts err) as (Hn & _ & _).
  assert (E : clock' = store_fit (fit_result lcl clock hw_ts local_ts err)
                         (at_fit lcl clock hw_ts local_ts err)).
  { subst clock'. rewrite AccumulateSample_phases. now rewrite Hr. }
  assert (Hv : valid_coefs clock' = false).
  { rewrite E. exact Hr. }
  split; [exact Hv |]. split; [unfold HCL_CookTime; now rewrite Hv |].
  split; [rewrite E; exact Hn |]. split; [exact Hx | exact Hy].
Qed.

(** With two samples live, a third whose hardware time does not advance
    leaves one sample, which the fitter refuses. *)
Lemma failed_fit_keeps_samples_witness :
  valid_coefs (HCL_AccumulateSample Bench.lcl Bench.on_line 20%Q 30%Q
                 (1 # 1000000)) = false /\
  HCL_CookTime (HCL_AccumulateSample Bench.lcl Bench.on_line 20%Q 30%Q
                  (1 # 1000000)) 25%Q = None.
Proof.
  destruct (failed_fit_keeps_samples Bench.lcl Bench.on_line 20%Q 30%Q
              (1 # 1000000) 25%Q) as (Hv & Hc & _).
  - vm_compute. reflexivity.
  - split; [exact Hv | exact Hc].
Defined.

(** X4: after a call of [HCL_AccumulateSample] with local time
    [local_ts], [HCL_NeedsNewSample] answers yes at once when the call
    ended with no sample (a rejected fit), and otherwise exactly when
    [now] is at least [min_separation] away from [local_ts]. *)
Theorem NeedsNewSample_after_accumulate `{C : Collaborators} (lcl : LCL)
  (clock : HCL_Instance_Record C) (hw_ts local_ts : timespec) (err : double)
  (now : timespec) :
  let clock' := HCL_AccumulateSample lcl clock hw_ts local_ts err in
  (n_samples clock' = 0 -> HCL_NeedsNewSample clock' now = true) /\
  (n_samples clock' <> 0 ->
   (HCL_NeedsNewSample clock' now = true <->
    (min_separation clock <= Qabs (now - local_ts))%Q)).
Proof.
  intros clock'.
  destruct (AccumulateSample_refs lcl clock hw_ts local_ts err)
    as (_ & Hlo & _ & Hsep & _).
  fold clock' in Hlo, Hsep.
  unfold HCL_NeedsNewSample, fabs, UTI_DiffTimespecsToDouble.
  rewrite Hlo, Hsep. split.
  - intros ->. reflexivity.
  - intros Hn. apply Z.eqb_neq in Hn. rewrite Hn. cbn [orb].
    unfold dge. rewrite negb_true_iff. apply dlt_false.
Qed.

Lemma NeedsNewSample_after_accumulate_witness :
  n_samples (HCL_AccumulateSample Bench.lcl Bench.two_samples 20%Q 20%Q
               (1 # 1000000)) <> 0 /\
  (min_separation Bench.two_samples <= Qabs (21 - 20))%Q /\
  HCL_NeedsNewSample
    (HCL_AccumulateSample Bench.lcl Bench.two_samples 20%Q 20%Q (1 # 1000000))
    21%Q = true.
Proof.
  assert (Hn : n_samples (HCL_AccumulateSample Bench.lcl Bench.two_samples
                            20%Q 20%Q (1 # 1000000)) <> 0)
    by (vm_compute; discriminate).
  assert (Hs : (min_separation Bench.two_samples <= Qabs (21 - 20))%Q)
    by (vm_compute; discriminate).
  split; [exact Hn |]. split; [exact Hs |].
  destruct (NeedsNewSample_after_accumulate Bench.lcl Bench.two_samples
              20%Q 20%Q (1 # 1000000) 21%Q) as [_ H2].
  exact (proj2 (H2 Hn) Hs).
Defined.

(** ** The window that the fitter is given *)

Section Window.
Context `{C : Collaborators}.
Implicit Types (clock : HCL_Instance_Record C) (lcl : LCL).

Lemma aget_lookup (a : list double) (j : nat) (v : double) :
  a !! j = Some v -> aget a (Z.of_nat j) = v.
Proof.
  intros H. unfold aget. destruct (Z.leb_spec 0 (Z.of_nat j)); [| lia].
  rewrite Nat2Z.id. unfold double in *. now rewrite H.
Qed.

(** The loop of lines 272-275, cell by cell: cell [j] receives the old
    cell [j + 1] minus the delta for [lo - 1 <= j < hi - 1], and every
    other cell is left alone. *)
Lemma shift_loop_cells (hd ld : double) (lo hi : Z) clock :
  1 <= lo -> lo <= hi ->
  hi <= Z.of_nat (length (x_data clock)) ->
  hi <= Z.of_nat (length (y_data clock)) ->
  let s := for_loop lo hi (shift_body hd ld) clock in
  forall (j : nat),
    (lo - 1 <= Z.of_nat j < hi - 1 ->
     x_data s !! j = Some (aget (x_data clock) (Z.of_nat j + 1) - ld)%Q /\
     y_data s !! j = Some (aget (y_data clock) (Z.of_nat j + 1) - hd)%Q) /\
    (Z.of_nat j < lo - 1 \/ hi - 1 <= Z.of_nat j ->
     x_data s !! j = x_data clock !! j /\ y_data s !! j = y_data clock !! j).
Proof.
  intros Hlo Hle Hx Hy.
  pose (P := fun (i : Z) (s : HCL_Instance_Record C) =>
    length (x_data s) = length (x_data clock) /\
    length (y_data s) = length (y_data clock) /\
    forall (j : nat),
      (lo - 1 <= Z.of_nat j < i - 1 ->
       x_data s !! j = Some (aget (x_data clock) (Z.of_nat j + 1) - ld)%Q /\
       y_data s !! j = Some (aget (y_data clock) (Z.of_nat j + 1) - hd)%Q) /\
      (Z.of_nat j < lo - 1 \/ i - 1 <= Z.of_nat j ->
       x_data s !! j = x_data clock !! j /\
       y_data s !! j = y_data clock !! j)).
  assert (Hstep : forall i s, lo <= i < hi -> P i s ->
            P (i + 1) (shift_body hd ld i s)).
  { intros i s Hi (Lx & Ly & Hc). unfold P, shift_body.
    cbn [x_data y_data set_x_data set_y_data].
    rewrite !aset_length. split; [exact Lx |]. split; [exact Ly |].
    assert (Hgx : aget (x_data s) i = aget (x_data clock) i).
    { unfold aget. destruct (0 <=? i); [| reflexivity].
      destruct (Hc (Z.to_nat i)) as [_ H]. destruct H as [E _]; [lia |].
      exact (f_equal (default 0%Q) E). }
    assert (Hgy : aget (y_data s) i = aget (y_data clock) i).
    { unfold aget. destruct (0 <=? i); [| reflexivity].
      destruct (Hc (Z.to_nat i)) as [_ H]. destruct H as [_ E]; [lia |].
      exact (f_equal (default 0%Q) E). }
    rewrite Hgx, Hgy. unfold aset.
    destruct (Z.leb_spec 0 (i - 1)) as [_ | Hneg]; [| lia].
    unfold double in *. intros j. destruct (Hc j) as [Hin Hout]. split.
    - intros Hj. destruct (Nat.eq_dec j (Z.to_nat (i - 1))) as [-> | Hne].
      + rewrite !list_lookup_insert_eq by lia.
        replace (Z.of_nat (Z.to_nat (i - 1)) + 1) with i by lia. now split.
      + rewrite !list_lookup_insert_ne by lia. apply Hin. lia.
    - intros Hj. rewrite !list_lookup_insert_ne by lia. apply Hout. lia. }
  assert (P0 : P lo clock).
  { unfold P. split; [reflexivity |]. split; [reflexivity |].
    intros j. split; [lia | now split]. }
  pose proof (for_loop_inv P (shift_body hd ld) lo hi clock Hstep P0) as Hinv.
  rewrite Z.max_r in Hinv by lia. destruct Hinv as (_ & _ & Hc). exact Hc.
Qed.

(** With samples live, the shift is the loop run on an instance that has
    the arrays of [clock] and the count [shifted_count]. *)
Lemma shift_old_samples_loop lcl clock hw_ts local_ts :
  n_samples clock <> 0 ->
  exists c2,
    shift_old_samples lcl clock hw_ts local_ts
    = for_loop (max_samples clock - shifted_count lcl clock hw_ts local_ts)
        (max_samples clock)
        (shift_body (hw_delta_of clock hw_ts)
           (local_delta_of lcl clock local_ts)) c2 /\
    x_data c2 = x_data clock /\ y_data c2 = y_data clock.
Proof.
  intros Hn. unfold shift_old_samples, shifted_count, hw_delta_of,
    local_delta_of.
  destruct (Z.eqb_spec (n_samples clock) 0); [contradiction |].
  set (c1 := if n_samples clock >=? max_samples clock then _ else clock).
  assert (H1 : hw_ref c1 = hw_ref clock /\ local_ref c1 = local_ref clock /\
               min_separation c1 = min_separation clock /\
               max_samples c1 = max_samples clock /\
               x_data c1 = x_data clock /\ y_data c1 = y_data clock /\
               n_samples c1 = (if n_samples clock >=? max_samples clock
                               then n_samples clock - 1 else n_samples clock)).
  { subst c1. destruct (_ >=? _); now repeat split. }
  destruct H1 as (-> & -> & -> & Hm & Hx & Hy & Hc).
  set (d := _ || _). set (c2 := if d then _ else c1).
  exists c2.
  assert (H2 : max_samples c2 = max_samples clock /\
               x_data c2 = x_data clock /\ y_data c2 = y_data clock /\
               n_samples c2 = (if d then 0 else n_samples c1)).
  { subst c2. destruct d; cbn; auto. }
  destruct H2 as (-> & Hx2 & Hy2 & ->). rewrite Hc.
  split; [reflexivity | now split].
Qed.

End Window.

(** The live window when the fitter is called, written out from the
    cells that the shift loop leaves. *)
Lemma at_fit_window `{C : Collaborators} (lcl : LCL)
  (clock : HCL_Instance_Record C) (hw_ts local_ts : timespec) (err : double) :
  let k := shifted_count lcl clock hw_ts local_ts in
  let c1 := at_fit lcl clock hw_ts local_ts err in
  let newest := drop (Z.to_nat (max_samples clock - k)) in
  well_formed clock ->
  0 <= n_samples clock <= max_samples clock ->
  live_window c1 (x_data c1)
  = map (fun v => v - local_delta_of lcl clock local_ts)%Q
      (newest (x_data clock)) ++ [0%Q] /\
  live_window c1 (y_data c1)
  = map (fun v => v - hw_delta_of clock hw_ts)%Q
      (newest (y_data clock)) ++ [0%Q].
Proof.
  intros k c1 newest (Hmin & Hmm & H64 & Lx & Ly & Zx & Zy) Hn.
  pose proof (shifted_count_bounds lcl clock hw_ts local_ts ltac:(lia) Hn)
    as Hk. fold k in Hk.
  destruct (at_fit_counts lcl clock hw_ts local_ts err) as (Hn1 & _ & Hm1).
  fold c1 k in Hn1, Hm1.
  assert (Hcells : forall (j : nat),
    (max_samples clock - k - 1 <= Z.of_nat j < max_samples clock - 1 ->
     x_data c1 !! j
     = Some (aget (x_data clock) (Z.of_nat j + 1)
             - local_delta_of lcl clock local_ts)%Q /\
     y_data c1 !! j
     = Some (aget (y_data clock) (Z.of_nat j + 1)
             - hw_delta_of clock hw_ts)%Q) /\
    (max_samples clock - 1 <= Z.of_nat j ->
     x_data c1 !! j = x_data clock !! j /\
     y_data c1 !! j = y_data clock !! j)).
  { subst c1. unfold at_fit.
    cbn [x_data y_data install_sample set_n_samples set_hw_ref set_local_ref
         set_last_err].
    destruct (Z.eq_dec (n_samples clock) 0) as [E0 | Hne].
    - assert (Ek : k = 0).
      { subst k. unfold shifted_count. now rewrite E0. }
      unfold shift_old_samples. rewrite E0. cbn [Z.eqb].
      intros j. split; [lia | now split].
    - destruct (shift_old_samples_loop lcl clock hw_ts local_ts Hne)
        as (c2 & -> & Hx2 & Hy2). fold k.
      pose proof (shift_loop_cells (hw_delta_of clock hw_ts)
                    (local_delta_of lcl clock local_ts)
                    (max_samples clock - k) (max_samples clock) c2
                    ltac:(lia) ltac:(lia)
                    ltac:(rewrite Hx2, Lx; lia) ltac:(rewrite Hy2, Ly; lia))
        as Hc.
      cbv zeta in Hc. rewrite Hx2, Hy2 in Hc.
      intros j. destruct (Hc j) as [Hin Hout].
      split; [exact Hin | intros Hj; apply Hout; now right]. }
  assert (Hlen : length (x_data c1) = Z.to_nat (max_samples clock) /\
                 length (y_data c1) = Z.to_nat (max_samples clock)).
  { subst c1. unfold at_fit.
    cbn [x_data y_data install_sample set_n_samples set_hw_ref set_local_ref
         set_last_err].
    destruct (shift_old_samples_shape lcl clock hw_ts local_ts)
      as (X & Y & -> & HX & HY & _).
    cbn [x_data y_data set_x_data set_y_data]. now rewrite HX, HY, Lx, Ly. }
  destruct Hlen as [Lx1 Ly1].
  unfold live_window. rewrite Hn1, Hm1. unfold double in *.
  rewrite !take_ge by (rewrite length_drop; (unfold double in *; lia)).
  subst newest. cbv beta.
  split; apply list_eq; intros i; rewrite lookup_drop.
  - destruct (Nat.lt_ge_cases i (Z.to_nat k)) as [Hi | Hi].
    + rewrite lookup_app_l by (rewrite length_map, length_drop; (unfold double in *; lia)).
      rewrite list_lookup_fmap, lookup_drop.
      destruct (lookup_lt_is_Some_2 (x_data clock)
                  (Z.to_nat (max_samples clock - k) + i)) as [v Hv]; [(unfold double in *; lia) |].
      destruct (Hcells (Z.to_nat (max_samples clock - (k + 1)) + i)%nat)
        as [Hin _].
      destruct Hin as [-> _]; [(unfold double in *; lia) |].
      unfold double in *. rewrite Hv. cbn [fmap option_fmap option_map].
      f_equal. f_equal.
      rewrite <- (aget_lookup (x_data clock) _ v Hv). f_equal. (unfold double in *; lia).
    + rewrite lookup_app_r by (rewrite length_map, length_drop; (unfold double in *; lia)).
      rewrite length_map, length_drop.
      destruct (Nat.eq_dec i (Z.to_nat k)) as [-> | Hne].
      * destruct (Hcells (Z.to_nat (max_samples clock - (k + 1))
                          + Z.to_nat k)%nat) as [_ Hout].
        destruct Hout as [-> _]; [(unfold double in *; lia) |].
        replace (Z.to_nat (max_samples clock - (k + 1)) + Z.to_nat k)%nat
          with (Z.to_nat (max_samples clock - 1)) by (unfold double in *; lia).
        match goal with
        | |- _ = [_] !! ?n =>
            replace n with 0%nat by (unfold double in *; lia)
        end.
        exact Zx.
      * rewrite lookup_ge_None_2 by (unfold double in *; lia).
        symmetry. apply lookup_ge_None_2. cbn [length]. (unfold double in *; lia).
  - destruct (Nat.lt_ge_cases i (Z.to_nat k)) as [Hi | Hi].
    + rewrite lookup_app_l by (rewrite length_map, length_drop; (unfold double in *; lia)).
      rewrite list_lookup_fmap, lookup_drop.
      destruct (lookup_lt_is_Some_2 (y_data clock)
                  (Z.to_nat (max_samples clock - k) + i)) as [v Hv]; [(unfold double in *; lia) |].
      destruct (Hcells (Z.to_nat (max_samples clock - (k + 1)) + i)%nat)
        as [Hin _].
      destruct Hin as [_ ->]; [(unfold double in *; lia) |].
      unfold double in *. rewrite Hv. cbn [fmap option_fmap option_map].
      f_equal. f_equal.
      rewrite <- (aget_lookup (y_data clock) _ v Hv). f_equal. (unfold double in *; lia).
    + rewrite lookup_app_r by (rewrite length_map, length_drop; (unfold double in *; lia)).
      rewrite length_map, length_drop.
      destruct (Nat.eq_dec i (Z.to_nat k)) as [-> | Hne].
      * destruct (Hcells (Z.to_nat (max_samples clock - (k + 1))
                          + Z.to_nat k)%nat) as [_ Hout].
        destruct Hout as [_ ->]; [(unfold double in *; lia) |].
        replace (Z.to_nat (max_samples clock - (k + 1)) + Z.to_nat k)%nat
          with (Z.to_nat (max_samples clock - 1)) by (unfold double in *; lia).
        match goal with
        | |- _ = [_] !! ?n =>
            replace n with 0%nat by (unfold double in *; lia)
        end.
        exact Zy.
      * rewrite lookup_ge_None_2 by (unfold double in *; lia).
        symmetry. apply lookup_ge_None_2. cbn [length]. (unfold double in *; lia).
Qed.

(** X5: the window handed to the fitter.  Of the old samples the call
    keeps the [shifted_count] newest (all of them, all but the oldest
    when the arrays are full, none after a discontinuity), each with the
    local and the hardware delta subtracted, and appends the new sample
    as the pair (0, 0). *)
Theorem fitter_window `{C : Collaborators} (lcl : LCL)
  (clock : HCL_Instance_Record C) (hw_ts local_ts : timespec) (err : double) :
  let k := shifted_count lcl clock hw_ts local_ts in
  let c1 := at_fit lcl clock hw_ts local_ts err in
  let newest := drop (Z.to_nat (max_samples clock - k)) in
  well_formed clock ->
  0 <= n_samples clock <= max_samples clock ->
  live_window c1 (x_data c1)
  = map (fun v => v - local_delta_of lcl clock local_ts)%Q
      (newest (x_data clock)) ++ [0%Q] /\
  live_window c1 (y_data c1)
  = map (fun v => v - hw_delta_of clock hw_ts)%Q
      (newest (y_data clock)) ++ [0%Q].
Proof.
  intros k c1 newest Hwf Hn.
  exact (at_fit_window lcl clock hw_ts local_ts err Hwf Hn).
Qed.

Lemma fitter_window_witness :
  well_formed Bench.two_samples /\
  live_window (at_fit Bench.lcl Bench.two_samples 20%Q 20%Q (1 # 1000000))
    (y_data (at_fit Bench.lcl Bench.two_samples 20%Q 20%Q (1 # 1000000)))
  = map (fun v => v - hw_delta_of Bench.two_samples 20%Q)%Q
      (drop (Z.to_nat (max_samples Bench.two_samples
                       - shifted_count Bench.lcl Bench.two_samples 20%Q 20%Q))
         (y_data Bench.two_samples)) ++ [0%Q].
Proof.
  assert (Hwf : well_formed Bench.two_samples).
  { unfold well_formed. repeat split; vm_compute; try reflexivity;
      discriminate. }
  split; [exact Hwf |].
  apply (fitter_window Bench.lcl Bench.two_samples 20%Q 20%Q (1 # 1000000)).
  - exact Hwf.
  - split; vm_compute; discriminate.
Defined.

(** The least-squares fitter suggests index [bs] and nothing else. *)
Lemma least_squares_contract (bs : Z) (q1 q2 : double) :
  0 <= bs -> fitter_contract (Bench.settled bs q1 q2).
Proof.
  intros Hbs x y n tol. cbn. unfold Bench.least_squares.
  destruct (n <? 3); cbn; [discriminate | intros _; exact Hbs].
Qed.

Lemma n_samples_bounds_witness :
  0 <= n_samples Bench.off_line <= max_samples Bench.off_line /\
  max_samples Bench.off_line <= 64.
Proof.
  apply (n_samples_bounds (C := Bench.collab) Bench.off_line).
  - apply least_squares_contract. lia.
  - unfold Bench.off_line, Bench.ahead, Bench.accumulate, Bench.fresh.
    repeat apply reach_accumulate. apply reach_create.
Defined.

(** X7: what the constructor fixes stays fixed for the life of the
    instance: in every reachable instance [2 <= min_samples <=
    max_samples <= 64] and both arrays hold [max_samples] cells. *)
Theorem configuration_kept `{C : Collaborators}
  (clock : HCL_Instance_Record C) :
  reachable clock ->
  2 <= min_samples clock /\
  min_samples clock <= max_samples clock /\
  max_samples clock <= 64 /\
  length (x_data clock) = Z.to_nat (max_samples clock) /\
  length (y_data clock) = Z.to_nat (max_samples clock).
Proof.
  intros Hr. destruct (reachable_well_formed clock Hr)
    as (H1 & H2 & H3 & H4 & H5 & _).
  now repeat split.
Qed.

Lemma configuration_kept_witness :
  min_samples Bench.off_line <= max_samples Bench.off_line /\
  length (x_data Bench.off_line) = Z.to_nat (max_samples Bench.off_line).
Proof.
  destruct (configuration_kept Bench.off_line) as (_ & H2 & _ & H4 & _).
  - unfold Bench.off_line, Bench.ahead, Bench.accumulate, Bench.fresh.
    repeat apply reach_accumulate. apply reach_create.
  - split; [exact H2 | exact H4].
Defined.

(** X8: a slew never drops a sample and never makes or breaks a fit: it
    leaves the count, the validity flag, the offset, the error, the
    hardware reference and both arrays as they are, so [HCL_CookTime]
    fails after it exactly when it failed before.  Without a sample it
    leaves [local_ref] alone, without a valid fit the frequency; on a
    reachable instance that holds no sample it changes nothing. *)
Theorem slew_keeps_fit `{C : Collaborators} (cooked : timespec)
  (dfreq doffset : double) (clock : HCL_Instance_Record C) (raw : timespec) :
  let clock' := handle_slew cooked dfreq doffset clock in
  n_samples clock' = n_samples clock /\
  valid_coefs clock' = valid_coefs clock /\
  offset clock' = offset clock /\
  last_err clock' = last_err clock /\
  hw_ref clock' = hw_ref clock /\
  x_data clock' = x_data clock /\
  y_data clock' = y_data clock /\
  (HCL_CookTime clock' raw = None <-> HCL_CookTime clock raw = None) /\
  (n_samples clock = 0 -> local_ref clock' = local_ref clock) /\
  (valid_coefs clock = false -> frequency clock' = frequency clock) /\
  (valid_coefs clock = true ->
   frequency clock' = (frequency clock / (1 - dfreq))%Q) /\
  (reachable clock -> n_samples clock = 0 -> clock' = clock).
Proof.
  intros clock'.
  assert (Hid : reachable clock -> n_samples clock = 0 -> clock' = clock).
  { intros Hr Hn. destruct (reachable_valid clock Hr) as [_ Hv].
    assert (Ev : valid_coefs clock = false).
    { destruct (valid_coefs clock); [destruct (Hv eq_refl); lia | reflexivity]. }
    subst clock'. unfold handle_slew. rewrite Hn. cbn [Z.eqb].
    now rewrite Ev. }
  revert Hid. subst clock'. unfold handle_slew, HCL_CookTime.
  destruct clock as [hw lo x y mi ma n le se pr v o f dq].
  cbn [n_samples valid_coefs offset last_err hw_ref x_data y_data local_ref
       frequency set_local_ref set_frequency].
  destruct (Z.eqb_spec n 0) as [-> | Hn], v;
    cbn [n_samples valid_coefs offset last_err hw_ref x_data y_data local_ref
         frequency set_local_ref set_frequency negb];
    intros Hid; repeat split; try reflexivity; try discriminate;
    try (intros; congruence); try exact Hid.
Qed.

Lemma slew_keeps_fit_witness :
  frequency (handle_slew 50%Q (1 # 1000) 0%Q Bench.on_line)
  = (frequency Bench.on_line / (1 - (1 # 1000)))%Q /\
  handle_slew 50%Q (1 # 1000) 0%Q Bench.fresh = Bench.fresh.
Proof.
  split.
  - apply (slew_keeps_fit 50%Q (1 # 1000) 0%Q Bench.on_line 0%Q).
    vm_compute. reflexivity.
  - apply (slew_keeps_fit 50%Q (1 # 1000) 0%Q Bench.fresh 0%Q).
    + unfold Bench.fresh. apply reach_create.
    + vm_compute. reflexivity.
Defined.

(** ** HCL_ProcessReadings: the estimator and the outcome *)

Section Outcome.
Context `{C : Collaborators}.
Implicit Types (clock : HCL_Instance_Record C) (lcl : LCL).
Implicit Types (tss : list reading) (r : reading).

(** The first loop stops at the first negative delay, with the estimator
    fed the delays before it. *)
Lemma scan_delays_abort freq tss (j : nat) r q :
  tss !! j = Some r ->
  (reading_delay freq r < 0)%Q ->
  (forall (k : nat) r', (k < j)%nat -> tss !! k = Some r' ->
     (0 <= reading_delay freq r')%Q) ->
  scan_delays freq tss (Z.of_nat (length tss)) q
  = inl (fold_left QNT_Accumulate
           (map (reading_delay freq) (take j tss)) q).
Proof.
  intros Hj Hneg Hbefore. unfold scan_delays.
  pose proof (lookup_lt_Some _ _ _ Hj) as Hlt.
  pose (P := fun (i : Z) (s : scan_state) =>
    i <= Z.of_nat j /\
    sc_quants s
    = fold_left QNT_Accumulate
        (map (reading_delay freq) (take (Z.to_nat i) tss)) q).
  pose (Q := fun (q' : QNT_Instance) =>
    q' = fold_left QNT_Accumulate
           (map (reading_delay freq) (take j tss)) q).
  assert (Hstep : forall i s, 0 <= i < Z.of_nat (length tss) -> P i s ->
            match scan_body freq tss i s with
            | inl q' => Q q'
            | inr s' => P (i + 1) s'
            end).
  { intros i s Hi [Hle Hq].
    destruct (lookup_lt_is_Some_2 tss (Z.to_nat i)) as [ri Hri]; [lia |].
    assert (Hd : delay_at freq tss i = reading_delay freq ri).
    { rewrite <- (delay_at_lookup freq tss (Z.to_nat i) ri Hri).
      f_equal. lia. }
    unfold scan_body. rewrite Hd.
    destruct (dlt (reading_delay freq ri) 0%Q) eqn:E.
    - apply dlt_true in E.
      destruct (Z.eq_dec i (Z.of_nat j)) as [Eij | Hne].
      + unfold Q. rewrite Hq, Eij, Nat2Z.id. reflexivity.
      + exfalso. apply (Qlt_not_le _ _ E).
        apply (Hbefore (Z.to_nat i) ri); [lia | exact Hri].
    - apply dlt_false in E.
      assert (Hne : i <> Z.of_nat j).
      { intros ->. rewrite Nat2Z.id, Hj in Hri. injection Hri as <-.
        exact (Qlt_not_le _ _ Hneg E). }
      unfold P. split; [lia |].
      replace (Z.to_nat (i + 1)) with (S (Z.to_nat i)) by lia.
      cbn [sc_quants]. rewrite (take_S_r tss (Z.to_nat i) ri Hri).
      rewrite map_app, fold_left_app. cbn [map fold_left].
      rewrite <- Hq. now destruct (_ || _). }
  assert (P0 : P 0 (mkScan 0%Q 0 q)).
  { split; [lia | reflexivity]. }
  pose proof (for_up_ret_inv P Q (scan_body freq tss) 0
                (Z.of_nat (length tss)) Hstep
                (Z.to_nat (Z.of_nat (length tss))) 0 (mkScan 0%Q 0 q)
                ltac:(lia) ltac:(lia) P0) as Hinv.
  destruct (for_up_ret _ _ _ _ _) as [q' | s'].
  - now rewrite Hinv.
  - destruct Hinv as [Hle _]. lia.
Qed.

(** The instance after a batch without negative delay, and the three
    ways the call can end. *)
Lemma ProcessReadings_paths lcl clock tss :
  let freq := reading_freq lcl tss (Z.of_nat (length tss)) in
  let q := fold_left QNT_Accumulate (map (reading_delay freq) tss)
             (delay_quants clock) in
  let low := fst (delay_band lcl q) in
  let high := snd (delay_band lcl q) in
  let cb := combine_readings freq low high tss (Z.of_nat (length tss)) in
  (forall r, In r tss -> (0 <= reading_delay freq r)%Q) ->
  tss <> [] ->
  snd (HCL_ProcessReadings lcl clock tss) = set_delay_quants q clock /\
  exists sc,
    fst (HCL_ProcessReadings lcl clock tss)
    = if cb_combined cb >? 0 then
        Some (UTI_AddDoubleToTimespec (tss_at tss 0 1)
                (cb_hw_sum cb / of_int (cb_combined cb))%Q,
              UTI_AddDoubleToTimespec (tss_at tss 0 0)
                (cb_local_sum cb / of_int (cb_combined cb))%Q,
              fMAX (cb_delay_sum cb / of_int (cb_combined cb) / 2)%Q
                (precision clock))
      else
        let s := fallback_sample clock freq tss (sc_min_delay sc)
                   (sc_min_reading sc) in
        if fallback_accepted lcl clock s then Some s else None.
Proof.
  intros freq q low high cb Hpos Hne.
  unfold HCL_ProcessReadings.
  destruct (Z.ltb_spec (Z.of_nat (length tss)) 1) as [Hlen | _].
  { destruct tss; [contradiction | cbn in Hlen; lia]. }
  fold freq.
  destruct (scan_delays_ok freq tss (delay_quants clock) Hpos)
    as (sc & -> & Hq & _).
  cbn [delay_quants set_delay_quants]. rewrite Hq. fold q.
  subst cb low high. destruct (delay_band lcl q) as [low high].
  cbn [fst snd].
  set (cb := combine_readings freq low high tss (Z.of_nat (length tss))).
  change (fallback_sample (set_delay_quants q clock))
    with (fallback_sample clock).
  set (s := fallback_sample clock freq tss (sc_min_delay sc)
              (sc_min_reading sc)).
  change (fallback_accepted lcl (set_delay_quants q clock) s)
    with (fallback_accepted lcl clock s).
  change (precision (set_delay_quants q clock)) with (precision clock).
  split.
  - destruct (cb_combined cb >? 0); [reflexivity |].
    now destruct (fallback_accepted lcl clock s).
  - exists sc. fold s.
    destruct (cb_combined cb >? 0); [reflexivity |].
    now destruct (fallback_accepted lcl clock s).
Qed.





End Outcome.

(** X9: [HCL_ProcessReadings] never touches the fit or the samples: after
    any batch, accepted or not, [HCL_CookTime] and [HCL_NeedsNewSample]
    answer as before and the count and the arrays are the same; the
    quantile estimator is the only field that may change.  An empty
    batch is refused and changes nothing at all. *)
Theorem ProcessReadings_keeps_fit `{C : Collaborators} (lcl : LCL)
  (clock : HCL_Instance_Record C) (tss : list reading) (raw now : timespec) :
  let clock' := snd (HCL_ProcessReadings lcl clock tss) in
  HCL_CookTime clock' raw = HCL_CookTime clock raw /\
  HCL_NeedsNewSample clock' now = HCL_NeedsNewSample clock now /\
  n_samples clock' = n_samples clock /\
  x_data clock' = x_data clock /\
  y_data clock' = y_data clock /\
  clock' = set_delay_quants (delay_quants clock') clock /\
  HCL_ProcessReadings lcl clock [] = (None, clock).
Proof.
  intros clock'. subst clock'.
  destruct (ProcessReadings_state lcl clock tss) as [q ->].
  now repeat split.
Qed.

(** X10: what the quantile estimator sees.  A batch without a negative
    delay feeds it every delay once, in the order of the readings; a
    batch whose first negative delay is at position [j] fails and has
    fed it the [j] delays before, which stay in the estimator. *)
Theorem estimator_fed `{C : Collaborators} (lcl : LCL)
  (clock : HCL_Instance_Record C) (tss : list reading) :
  let freq := reading_freq lcl tss (Z.of_nat (length tss)) in
  let fed := fun (l : list reading) =>
    fold_left QNT_Accumulate (map (reading_delay freq) l)
      (delay_quants clock) in
  ((forall r, In r tss -> (0 <= reading_delay freq r)%Q) ->
   delay_quants (snd (HCL_ProcessReadings lcl clock tss)) = fed tss) /\
  (forall (j : nat) r,
     tss !! j = Some r ->
     (reading_delay freq r < 0)%Q ->
     (forall (k : nat) r', (k < j)%nat -> tss !! k = Some r' ->
        (0 <= reading_delay freq r')%Q) ->
     HCL_ProcessReadings lcl clock tss
     = (None, set_delay_quants (fed (take j tss)) clock)).
Proof.
  intros freq fed. split.
  - intros Hpos.
    assert (Hcase : tss = [] \/ tss <> [])
      by (destruct tss; [now left | now right]).
    destruct Hcase as [Hnil | Hne].
    + subst fed freq. rewrite Hnil. reflexivity.
    + destruct (ProcessReadings_paths lcl clock tss Hpos Hne) as [-> _].
      reflexivity.
  - intros j r Hj Hneg Hbefore.
    pose proof (lookup_lt_Some _ _ _ Hj) as Hlt.
    unfold HCL_ProcessReadings.
    destruct (Z.ltb_spec (Z.of_nat (length tss)) 1); [lia |].
    fold freq.
    now rewrite (scan_delays_abort freq tss j r (delay_quants clock)
                   Hj Hneg Hbefore).
Qed.

(** With an estimator that keeps what it is fed: of three readings the
    second has a negative delay, and only the delay of the first has
    reached the estimator. *)
Lemma estimator_fed_witness :
  HCL_ProcessReadings Bench.lcl Bench.fresh_recording Bench.stepped
  = (None,
     set_delay_quants
       (fold_left QNT_Accumulate
          (map (reading_delay (reading_freq Bench.lcl Bench.stepped 3))
             (take 1 Bench.stepped))
          (delay_quants Bench.fresh_recording))
       Bench.fresh_recording) /\
  length (delay_quants
            (snd (HCL_ProcessReadings Bench.lcl Bench.fresh_recording
                    Bench.stepped))) = 1%nat.
Proof.
  assert (E := proj2 (estimator_fed Bench.lcl Bench.fresh_recording
                        Bench.stepped) 1%nat (32, 32, 31)%Q).
  cbv zeta in E. split.
  - apply E.
    + reflexivity.
    + vm_compute. reflexivity.
    + intros k r' Hk Hr'. assert (k = 0%nat) as -> by lia.
      injection Hr' as <-. vm_compute. discriminate.
  - vm_compute. reflexivity.
Defined.

(** X11: whenever the call succeeds, on either path, the error it
    returns is at least the configured [precision]. *)
Theorem ProcessReadings_err_floor `{C : Collaborators} (lcl : LCL)
  (clock : HCL_Instance_Record C) (tss : list reading)
  (hw_ts local_ts : timespec) (err : double) :
  fst (HCL_ProcessReadings lcl clock tss) = Some (hw_ts, local_ts, err) ->
  (precision clock <= err)%Q.
Proof.
  unfold HCL_ProcessReadings.
  destruct (_ <? 1); [discriminate |].
  destruct (scan_delays _ _ _ _) as [q | sc]; [discriminate |].
  destruct (delay_band _ _) as [low high].
  cbn [precision set_delay_quants].
  destruct (_ >? 0).
  - cbn [fst]. intros H. injection H as _ _ <-. apply fMAX_max.
  - unfold fallback_sample. cbn [precision set_delay_quants].
    destruct (fallback_accepted _ _ _); [| discriminate].
    cbn [fst]. intros H. injection H as _ _ <-. apply fMAX_max.
Qed.

Lemma ProcessReadings_err_floor_witness :
  exists hw_ts local_ts err,
    fst (HCL_ProcessReadings Bench.lcl Bench.on_line Bench.spike_early)
    = Some (hw_ts, local_ts, err) /\
    (precision Bench.on_line <= err)%Q.
Proof.
  eexists _, _, _. split; [vm_compute; reflexivity |].
  eapply (ProcessReadings_err_floor Bench.lcl Bench.on_line Bench.spike_early).
  vm_compute. reflexivity.
Defined.



(** X13: the reading with minimum delay, as the code takes it.  When no
    reading is in the band, the candidate is a reading whose delay no
    other reading undercuts, with [local_ts] at the middle of its read
    and [err = MAX (delay / 2, precision)].  The call returns it exactly
    when there is no valid fit or the cooked [local_ts] is later than
    the time the fit predicts for [hw_ts] by more than [err]; it fails
    exactly when the fit is valid and that signed difference is at most
    [err], so also when the prediction is later than the candidate by
    any amount. *)
Theorem fallback_one_sided `{C : Collaborators} (lcl : LCL)
  (clock : HCL_Instance_Record C) (tss : list reading) :
  let freq := reading_freq lcl tss (Z.of_nat (length tss)) in
  let q := fold_left QNT_Accumulate (map (reading_delay freq) tss)
             (delay_quants clock) in
  let low := fst (delay_band lcl q) in
  let high := snd (delay_band lcl q) in
  (forall r, In r tss -> (0 <= reading_delay freq r)%Q) ->
  tss <> [] ->
  accepted_readings freq low high tss = [] ->
  exists r,
    In r tss /\
    (forall r', In r' tss -> (reading_delay freq r <= reading_delay freq r')%Q) /\
    let hw_ts := reading_hw r in
    let local_ts := (reading_start r + reading_delay freq r / freq / 2)%Q in
    let err := fMAX (reading_delay freq r / 2)%Q (precision clock) in
    let pred_err :=
      (LCL_CookTime lcl local_ts
       - (local_ref clock
          + ((hw_ts - hw_ref clock) / frequency clock - offset clock)))%Q in
    (fst (HCL_ProcessReadings lcl clock tss) = Some (hw_ts, local_ts, err) <->
     valid_coefs clock = false \/ (err < pred_err)%Q) /\
    (fst (HCL_ProcessReadings lcl clock tss) = None <->
     valid_coefs clock = true /\ (pred_err <= err)%Q).
Proof.
  intros freq q low high Hpos Hne Hacc.
  destruct (ProcessReadings_fallback lcl clock tss Hpos Hne Hacc)
    as (k & r & Hk & Hmin & E).
  exists r. split.
  { apply list_elem_of_In, list_elem_of_lookup. eauto. }
  split; [exact Hmin |].
  cbv zeta in E |- *. fold freq in E. rewrite E.
  pose proof (fallback_accepted_iff lcl clock (reading_hw r)
                (reading_start r + reading_delay freq r / freq / 2)%Q
                (fMAX (reading_delay freq r / 2)%Q (precision clock)))
    as Hiff.
  destruct (fallback_accepted lcl clock _) eqn:Ea.
  - destruct (proj1 Hiff eq_refl) as [Hv | Hlt].
    + split; [split; [now left | reflexivity] |].
      split; [discriminate | intros [Hv' _]; congruence].
    + split; [split; [now right | reflexivity] |].
      split; [discriminate | intros [_ Hle]; exfalso; lra].
  - assert (Hv : valid_coefs clock = true).
    { destruct (valid_coefs clock) eqn:Ev; [reflexivity |].
      discriminate (proj2 Hiff (or_introl eq_refl)). }
    assert (Hle : ~ (fMAX (reading_delay freq r / 2) (precision clock)
                     < LCL_CookTime lcl
                         (reading_start r + reading_delay freq r / freq / 2)
                       - (local_ref clock
                          + ((reading_hw r - hw_ref clock) / frequency clock
                             - offset clock)))%Q).
    { intros Hlt. discriminate (proj2 Hiff (or_intror Hlt)). }
    split.
    + split; [discriminate |]. intros [Hv' | Hlt]; [congruence | contradiction].
    + split; [intros _; split; [exact Hv | lra] | reflexivity].
Qed.

Lemma fallback_one_sided_witness :
  exists r,
    In r Bench.spike_late /\
    fst (HCL_ProcessReadings Bench.lcl Bench.on_line Bench.spike_late) = None.
Proof.
  destruct (fallback_one_sided Bench.lcl Bench.on_line Bench.spike_late)
    as (r & Hin & _ & _ & Hnone).
  - intros r [<- | []]. vm_compute. discriminate.
  - discriminate.
  - vm_compute. reflexivity.
  - exists r. split; [exact Hin |]. apply Hnone.
    destruct Hin as [<- | []]. split; [vm_compute; reflexivity |].
    vm_compute. discriminate.
Defined.

(** X14: the acceptance band of lines 200-205 lies on the two quantiles:
    its lower end is at most either of them, its upper end at least the
    high one, and the band is at least the system precision wide. *)
Theorem delay_band_width `{C : Collaborators} (lcl : LCL) (q : QNT_Instance) :
  let low := fst (delay_band lcl q) in
  let high := snd (delay_band lcl q) in
  (low <= QNT_GetQuantile q DELAY_QUANT_MIN_K)%Q /\
  (low <= QNT_GetQuantile q DELAY_QUANT_MAX_K)%Q /\
  (QNT_GetQuantile q DELAY_QUANT_MAX_K <= high)%Q /\
  (low + LCL_GetSysPrecisionAsQuantum lcl <= high)%Q /\
  (low = QNT_GetQuantile q DELAY_QUANT_MIN_K
   \/ low = QNT_GetQuantile q DELAY_QUANT_MAX_K).
Proof.
  unfold delay_band. cbn [fst snd].
  set (a := QNT_GetQuantile q DELAY_QUANT_MIN_K).
  set (b := QNT_GetQuantile q DELAY_QUANT_MAX_K).
  set (p := LCL_GetSysPrecisionAsQuantum lcl).
  assert (Hmin : (fMIN a b <= a)%Q /\ (fMIN a b <= b)%Q /\
                 (fMIN a b = a \/ fMIN a b = b)).
  { unfold fMIN. destruct (dlt a b) eqn:E.
    - apply dlt_true in E. repeat split; try lra. now left.
    - apply dlt_false in E. repeat split; try lra. now right. }
  destruct Hmin as (H1 & H2 & H3).
  destruct (fMAX_max b (fMIN a b + p)%Q) as (H4 & H5 & _).
  now repeat split.
Qed.



(** X16: the sliding window.  When samples are live and the new sample is
    no discontinuity, the call keeps every old sample if there is room
    and all but the oldest if the arrays are full, so the fitter gets at
    most [max_samples] pairs. *)
Theorem window_slides `{C : Collaborators} (lcl : LCL)
  (clock : HCL_Instance_Record C) (hw_ts local_ts : timespec) (err : double) :
  let c1 := at_fit lcl clock hw_ts local_ts err in
  let kept := if n_samples clock <? max_samples clock
              then n_samples clock else max_samples clock - 1 in
  well_formed clock ->
  1 <= n_samples clock <= max_samples clock ->
  (0 < hw_delta_of clock hw_ts)%Q ->
  (min_separation clock / 2 <= local_delta_of lcl clock local_ts)%Q ->
  n_samples c1 = kept + 1 /\
  n_samples c1 <= max_samples clock /\
  live_window c1 (x_data c1)
  = map (fun v => v - local_delta_of lcl clock local_ts)%Q
      (drop (Z.to_nat (max_samples clock - kept)) (x_data clock)) ++ [0%Q] /\
  live_window c1 (y_data c1)
  = map (fun v => v - hw_delta_of clock hw_ts)%Q
      (drop (Z.to_nat (max_samples clock - kept)) (y_data clock)) ++ [0%Q].
Proof.
  intros c1 kept Hwf Hn Hhw Hlo.
  assert (Hk : shifted_count lcl clock hw_ts local_ts = kept).
  { unfold shifted_count. destruct (Z.eqb_spec (n_samples clock) 0); [lia |].
    assert (E : dle (hw_delta_of clock hw_ts) 0%Q
                || dlt (local_delta_of lcl clock local_ts)
                     (min_separation clock / 2)%Q = false).
    { apply orb_false_iff. split; [now apply dle_false | now apply dlt_false]. }
    rewrite E. subst kept.
    destruct (Z.geb_spec (n_samples clock) (max_samples clock)),
             (Z.ltb_spec (n_samples clock) (max_samples clock)); lia. }
  destruct (at_fit_counts lcl clock hw_ts local_ts err) as (Hn1 & _ & _).
  fold c1 in Hn1. rewrite Hk in Hn1.
  destruct (at_fit_window lcl clock hw_ts local_ts err Hwf ltac:(lia))
    as [Hx Hy].
  rewrite Hk in Hx, Hy. fold c1 in Hx, Hy.
  split; [exact Hn1 |]. split.
  - rewrite Hn1. subst kept.
    destruct (Z.ltb_spec (n_samples clock) (max_samples clock)); lia.
  - split; [exact Hx | exact Hy].
Qed.

(** Two samples live, room for eight: the third call keeps both. *)
Lemma window_slides_witness :
  n_samples (at_fit Bench.lcl Bench.two_samples 20%Q 20%Q (1 # 1000000)) = 3.
Proof.
  destruct (window_slides Bench.lcl Bench.two_samples 20%Q 20%Q (1 # 1000000))
    as (Hn & _).
  - unfold well_formed. repeat split; vm_compute; try reflexivity;
      discriminate.
  - split; vm_compute; discriminate.
  - vm_compute. reflexivity.
  - vm_compute. discriminate.
  - rewrite Hn. vm_compute. reflexivity.
Defined.

(** X17: what the constructor returns.  No sample is live and no fit is
    valid, so [HCL_CookTime] fails for every hardware time and
    [HCL_NeedsNewSample] answers yes for every time; of the two arrays
    only the last cell is written, every cell below it is as the
    allocator returned it. *)
Theorem CreateInstance_fresh `{C : Collaborators}
  (mem : HCL_Instance_Record C) (gx gy : nat -> double) (mins maxs : Z)
  (sep prec : double) (raw now : timespec) (k : nat) :
  let clock := HCL_CreateInstance mem gx gy mins maxs sep prec in
  n_samples clock = 0 /\
  valid_coefs clock = false /\
  min_separation clock = sep /\
  precision clock = prec /\
  HCL_CookTime clock raw = None /\
  HCL_NeedsNewSample clock now = true /\
  (Z.of_nat k < max_samples clock - 1 ->
   x_data clock !! k = Some (gx k) /\ y_data clock !! k = Some (gy k)).
Proof.
  intros clock.
  do 6 (split; [reflexivity |]).
  intros Hk. exact (CreateInstance_arrays mem gx gy mins maxs sep prec k Hk).
Qed.

Lemma CreateInstance_fresh_witness :
  x_data Bench.fresh !! 2%nat = Some (Bench.garbage 2) /\
  y_data Bench.fresh !! 2%nat = Some (Bench.garbage 2).
Proof.
  apply (CreateInstance_fresh Bench.mem Bench.garbage Bench.garbage 3 8 1%Q
           (1 # 1000000) 0%Q 0%Q 2).
  vm_compute. reflexivity.
Defined.
